(** * The aepc resource-to-service compiler (writer/proto/resource.go)

    A shallow embedding of [AddResource], the per-method generators and the
    path helpers, together with the properties the specification states
    about them.

    Conventions of the embedding:
    - Go strings are [string]s (byte strings);
    - a Go pointer that the code tests against nil is an [option];
    - the two builders that the generators mutate in place
      ([*builder.FileBuilder], [*builder.ServiceBuilder]) are the state of a
      small state monad;
    - the [for] loop of [generateHTTPPath] has no bound in the source, so it
      is run on fuel and reports [OutOfFuel] when the fuel is spent;
    - a nil-pointer dereference is the outcome [Panics]. *)

From Stdlib Require Import String Ascii List ZArith NArith Bool Lia.
From Stdlib Require Import Permutation Sorted DecimalString.
Import ListNotations.
Open Scope string_scope.

Set Implicit Arguments.

(* ------------------------------------------------------------------ *)
(** ** Go's [strings] and [fmt] as far as the compiler uses them       *)
(* ------------------------------------------------------------------ *)

Module strings.

(** [unicode.ToLower] restricted to one byte: 'A'..'Z' are mapped to
    'a'..'z', every other byte is kept.  Multi-byte UTF-8 letters are
    outside this model. *)
Definition lowerByte (c : ascii) : ascii :=
  let n := N_of_ascii c in
  if (65 <=? n)%N && (n <=? 90)%N then ascii_of_N (n + 32) else c.

Fixpoint ToLower (s : string) : string :=
  match s with
  | EmptyString => EmptyString
  | String c rest => String (lowerByte c) (ToLower rest)
  end.

(** [strings.Join(elems, sep)]. *)
Fixpoint Join (elems : list string) (sep : string) : string :=
  match elems with
  | [] => ""
  | [e] => e
  | e :: rest => e ++ sep ++ Join rest sep
  end.

End strings.

(** Go's [error] values: [errors.New]-like leaves and the [%w] wrapping of
    [fmt.Errorf].  [Error] is the message, [Unwrap] the wrapped error. *)
Inductive error : Type :=
| errorString (msg : string)
| wrapError (msg : string) (inner : error).

Definition Error (e : error) : string :=
  match e with
  | errorString m => m
  | wrapError m _ => m
  end.

Definition Unwrap (e : error) : option error :=
  match e with
  | errorString _ => None
  | wrapError _ inner => Some inner
  end.

(** [fmt.Errorf(prefix + "%w", err)]: the message is the prefix followed by
    the message of [err], and [err] stays reachable through [Unwrap]. *)
Definition Errorf_w (prefix : string) (err : error) : error :=
  wrapError (prefix ++ Error err) err.

(* ------------------------------------------------------------------ *)
(** ** The resource model (packages [schema] and [parser])             *)
(* ------------------------------------------------------------------ *)

Module schema.

(** [schema.Type].  The six enumerators that [GeneratedResourceMessage]
    maps are named; [Type_other] stands for any other value of the
    enumeration, carried with the text its [String] method prints. *)
Inductive Type_ : Type :=
| Type_STRING
| Type_INT32
| Type_INT64
| Type_BOOLEAN
| Type_DOUBLE
| Type_FLOAT
| Type_other (name : string).

(** What [%s] prints for a [schema.Type]. *)
Definition Type_String (t : Type_) : string :=
  match t with
  | Type_STRING => "STRING"
  | Type_INT32 => "INT32"
  | Type_INT64 => "INT64"
  | Type_BOOLEAN => "BOOLEAN"
  | Type_DOUBLE => "DOUBLE"
  | Type_FLOAT => "FLOAT"
  | Type_other name => name
  end.

(** [schema.Methods]: one pointer per standard method; the compiler only
    tests each of them against nil, so a field is [true] exactly when the
    pointer is set. *)
Record Methods : Type := {
  Create : bool;
  Read : bool;
  Update : bool;
  Delete : bool;
  List : bool;
  GlobalList : bool;
  Apply : bool
}.

End schema.

Module parser.

(** [parser.ParsedProperty]: a property with its name. *)
Record ParsedProperty : Type := {
  Name : string;
  Type_ : schema.Type_;
  Number : Z                      (* int32 *)
}.

(** [parser.ParsedResource].  [ResourceType] is the Go field [Type];
    [Parents] is [[]*ParsedResource], so an entry may be nil. *)
#[warnings="-register-all"]
Inductive ParsedResource : Type := {
  Kind : string;
  Plural : string;
  ResourceType : string;
  Fields : list ParsedProperty;
  Methods : option schema.Methods;
  Parents : list (option ParsedResource)
}.

(** Modelled from the spec: the sort behind [GetFieldsSortedByNumber],
    which is not among the sources.  The specification has the fields
    "iterated in field-number order"; this is the insertion step of an
    insertion sort of [Fields] on [Number]. *)
Fixpoint insertByNumber (p : ParsedProperty) (l : list ParsedProperty)
  : list ParsedProperty :=
  match l with
  | [] => [p]
  | q :: rest =>
      if (Number p <=? Number q)%Z then p :: q :: rest
      else q :: insertByNumber p rest
  end.

(** Modelled from the spec: the method [GetFieldsSortedByNumber] of
    [parser.ParsedResource], absent from the sources; it yields the fields
    of the resource in the order of their numbers. *)
Definition GetFieldsSortedByNumber (r : ParsedResource)
  : list ParsedProperty :=
  fold_right insertByNumber [] (Fields r).

End parser.

Import parser.

(* ------------------------------------------------------------------ *)
(** ** Outcomes of a call                                              *)
(* ------------------------------------------------------------------ *)

(** A call returns a value, panics, or is still running when the fuel of
    the model is spent. *)
Inductive Outcome (A : Type) : Type :=
| Returns (a : A)
| Panics
| OutOfFuel.

Arguments Panics {A}.
Arguments OutOfFuel {A}.

Definition obind {A B} (o : Outcome A) (k : A -> Outcome B) : Outcome B :=
  match o with
  | Returns a => k a
  | Panics => Panics
  | OutOfFuel => OutOfFuel
  end.

(* ------------------------------------------------------------------ *)
(** ** Path generation                                                 *)
(* ------------------------------------------------------------------ *)

(** The loop of [generateHTTPPath]:
<<
    for p != nil {
        elements = append([]string{strings.ToLower(p.Plural)}, elements...)
        if len(p.Parents) == 0 { break }
    }
>>
    [p] is not assigned in the body, so the recursive call is on the same
    [p]. *)
Fixpoint parentLoop (fuel : nat) (p : option ParsedResource)
         (elements : list string) : Outcome (list string) :=
  match p with
  | None => Returns elements
  | Some pr =>
      match fuel with
      | O => OutOfFuel
      | S fuel' =>
          let elements := strings.ToLower (Plural pr) :: elements in
          if (length (Parents pr) =? 0)%nat then Returns elements
          else parentLoop fuel' p elements
      end
  end.

Definition generateHTTPPath (fuel : nat) (r : ParsedResource)
  : Outcome string :=
  let elements := [strings.ToLower (Plural r)] in
  obind
    (match Parents r with
     | [] => Returns elements
     | p :: _ => parentLoop fuel p elements
     end)
    (fun elements => Returns (strings.Join elements "/*/" ++ "/*")).

(** [generateHTTPPath(r.Parents[0])] dereferences its argument at
    [r.Plural]; on a nil first parent that is a panic. *)
Definition generateParentHTTPPath (fuel : nat) (r : ParsedResource)
  : Outcome string :=
  obind
    (match Parents r with
     | [] => Returns ""
     | None :: _ => Panics
     | Some p :: _ => generateHTTPPath fuel p
     end)
    (fun parentPath =>
       Returns ("/{parent=" ++ parentPath ++ strings.ToLower (Plural r) ++ "}")).

(* ------------------------------------------------------------------ *)
(** ** The descriptor libraries                                        *)
(* ------------------------------------------------------------------ *)

Module desc.

(** A loaded [*desc.MessageDescriptor], identified by its fully-qualified
    name. *)
Definition MessageDescriptor : Type := string.

(** The global registry behind [desc.LoadMessageDescriptorForType] and
    [desc.LoadMessageDescriptor].  Both return a Go pair of a descriptor
    pointer and an [error]; either component may be nil. *)
Record Registry : Type := {
  LoadMessageDescriptorForType :
    string -> option MessageDescriptor * option error;
  LoadMessageDescriptor :
    string -> option MessageDescriptor * option error
}.

End desc.

Module annotations.

Inductive FieldBehavior : Type :=
| FieldBehavior_UNSPECIFIED
| FieldBehavior_OPTIONAL
| FieldBehavior_REQUIRED.

(** [annotations.ResourceReference]; the zero value has empty strings. *)
Record ResourceReference : Type := {
  Type_ : string;
  ChildType : string
}.

(** The [Pattern] of an [annotations.HttpRule]: verb and path template. *)
Inductive HttpPattern : Type :=
| HttpRule_Get (path : string)
| HttpRule_Put (path : string)
| HttpRule_Post (path : string)
| HttpRule_Delete (path : string)
| HttpRule_Patch (path : string).

Record HttpRule : Type := {
  Pattern : HttpPattern;
  Body : string
}.

Definition patternPath (p : HttpPattern) : string :=
  match p with
  | HttpRule_Get s | HttpRule_Put s | HttpRule_Post s
  | HttpRule_Delete s | HttpRule_Patch s => s
  end.

End annotations.

Module descriptorpb.

(** [descriptorpb.FieldOptions] with the two extensions the compiler sets:
    [E_FieldBehavior] and [E_ResourceReference]. *)
Record FieldOptions : Type := {
  E_FieldBehavior : list annotations.FieldBehavior;
  E_ResourceReference : option annotations.ResourceReference
}.

(** [descriptorpb.MethodOptions] with [E_Http] and [E_MethodSignature]. *)
Record MethodOptions : Type := {
  E_Http : option annotations.HttpRule;
  E_MethodSignature : option (list string)
}.

(** [descriptorpb.MessageOptions]; the compiler only ever sets the empty
    value. *)
Inductive MessageOptions : Type := emptyMessageOptions.

End descriptorpb.

Module builder.

(** [*builder.FieldType].  A message defined in the file being built is
    referred to by its name, which is how the file builder keys it. *)
Inductive FieldType : Type :=
| FieldTypeString
| FieldTypeInt32
| FieldTypeInt64
| FieldTypeBool
| FieldTypeDouble
| FieldTypeFloat
| FieldTypeMessage (mb : string)
| FieldTypeImportedMessage (md : option desc.MessageDescriptor).

Record FieldBuilder : Type := {
  FieldName : string;
  FieldTyp : FieldType;
  FieldNumber : Z;
  FieldComment : string;
  FieldOptions : option descriptorpb.FieldOptions;
  FieldRepeated : bool
}.

Definition NewField (name : string) (typ : FieldType) : FieldBuilder :=
  {| FieldName := name; FieldTyp := typ; FieldNumber := 0;
     FieldComment := ""; FieldOptions := None; FieldRepeated := false |}.

Definition SetNumber (f : FieldBuilder) (n : Z) : FieldBuilder :=
  {| FieldName := FieldName f; FieldTyp := FieldTyp f; FieldNumber := n;
     FieldComment := FieldComment f; FieldOptions := FieldOptions f;
     FieldRepeated := FieldRepeated f |}.

Definition SetFieldComments (f : FieldBuilder) (c : string) : FieldBuilder :=
  {| FieldName := FieldName f; FieldTyp := FieldTyp f;
     FieldNumber := FieldNumber f; FieldComment := c;
     FieldOptions := FieldOptions f; FieldRepeated := FieldRepeated f |}.

Definition SetFieldOptions (f : FieldBuilder) (o : descriptorpb.FieldOptions)
  : FieldBuilder :=
  {| FieldName := FieldName f; FieldTyp := FieldTyp f;
     FieldNumber := FieldNumber f; FieldComment := FieldComment f;
     FieldOptions := Some o; FieldRepeated := FieldRepeated f |}.

Definition SetRepeated (f : FieldBuilder) : FieldBuilder :=
  {| FieldName := FieldName f; FieldTyp := FieldTyp f;
     FieldNumber := FieldNumber f; FieldComment := FieldComment f;
     FieldOptions := FieldOptions f; FieldRepeated := true |}.

(** [*builder.MessageBuilder]: name, leading comment, the fields in the
    order they were added, options.  The builder's own checks on names and
    tags are not part of this model. *)
Record MessageBuilder : Type := {
  MsgName : string;
  MsgComment : string;
  MsgFields : list FieldBuilder;
  MsgOptions : option descriptorpb.MessageOptions
}.

Definition NewMessage (name : string) : MessageBuilder :=
  {| MsgName := name; MsgComment := ""; MsgFields := [];
     MsgOptions := None |}.

Definition SetComments (mb : MessageBuilder) (c : string) : MessageBuilder :=
  {| MsgName := MsgName mb; MsgComment := c; MsgFields := MsgFields mb;
     MsgOptions := MsgOptions mb |}.

Definition AddField (mb : MessageBuilder) (f : FieldBuilder)
  : MessageBuilder :=
  {| MsgName := MsgName mb; MsgComment := MsgComment mb;
     MsgFields := MsgFields mb ++ [f]; MsgOptions := MsgOptions mb |}.

Definition SetOptions (mb : MessageBuilder) (o : descriptorpb.MessageOptions)
  : MessageBuilder :=
  {| MsgName := MsgName mb; MsgComment := MsgComment mb;
     MsgFields := MsgFields mb; MsgOptions := Some o |}.

(** [*builder.RpcType]: request or response type of a method. *)
Inductive RpcType : Type :=
| RpcTypeMessage (mb : string) (stream : bool)
| RpcTypeImportedMessage (md : option desc.MessageDescriptor) (stream : bool).

Record MethodBuilder : Type := {
  MethodName : string;
  MethodReq : RpcType;
  MethodResp : RpcType;
  MethodComment : string;
  MethodOptions : option descriptorpb.MethodOptions
}.

Definition NewMethod (name : string) (req resp : RpcType) : MethodBuilder :=
  {| MethodName := name; MethodReq := req; MethodResp := resp;
     MethodComment := ""; MethodOptions := None |}.

Definition SetMethodComments (m : MethodBuilder) (c : string)
  : MethodBuilder :=
  {| MethodName := MethodName m; MethodReq := MethodReq m;
     MethodResp := MethodResp m; MethodComment := c;
     MethodOptions := MethodOptions m |}.

Definition SetMethodOptions (m : MethodBuilder)
           (o : descriptorpb.MethodOptions) : MethodBuilder :=
  {| MethodName := MethodName m; MethodReq := MethodReq m;
     MethodResp := MethodResp m; MethodComment := MethodComment m;
     MethodOptions := Some o |}.

(** The two accumulators: the messages of the [*builder.FileBuilder] and
    the methods of the [*builder.ServiceBuilder], in the order added. *)
Record Builders : Type := {
  fb : list MessageBuilder;
  sb : list MethodBuilder
}.

Definition fresh : Builders := {| fb := []; sb := [] |}.

End builder.

Import builder.

Module constants.

(** Modelled from the spec: package [constants] is not among the sources.
    The names are those of the specification's reserved table, and so are
    the numbers of [parent], [id] and [path]. *)
Definition FIELD_PARENT_NAME : string := "parent".
Definition FIELD_ID_NAME : string := "id".
Definition FIELD_PATH_NAME : string := "path".
Definition FIELD_UPDATE_MASK_NAME : string := "update_mask".
Definition FIELD_PAGE_TOKEN_NAME : string := "page_token".
Definition FIELD_MAX_PAGE_SIZE_NAME : string := "max_page_size".
Definition FIELD_NEXT_PAGE_TOKEN_NAME : string := "next_page_token".
Definition FIELD_PARENT_NUMBER : Z := 1.
Definition FIELD_ID_NUMBER : Z := 2.
Definition FIELD_PATH_NUMBER : Z := 1.

(** The remaining numbers of the table.  The specification only says that
    each is a fixed constant, so the development is parametric in them. *)
Record Numbers : Type := {
  FIELD_RESOURCE_NUMBER : Z;
  FIELD_RESOURCES_NUMBER : Z;
  FIELD_UPDATE_MASK_NUMBER : Z;
  FIELD_PAGE_TOKEN_NUMBER : Z;
  FIELD_MAX_PAGE_SIZE_NUMBER : Z;
  FIELD_NEXT_PAGE_TOKEN_NUMBER : Z
}.

End constants.

(* ------------------------------------------------------------------ *)
(** ** The state monad of the generators                               *)
(* ------------------------------------------------------------------ *)

(** A generator call runs on the two builders and leaves them as they are
    at the moment it returns, panics or runs out of fuel. *)
Definition M (A : Type) : Type := Builders -> Outcome A * Builders.

Definition ret {A} (a : A) : M A := fun s => (Returns a, s).

Definition bind {A B} (c : M A) (k : A -> M B) : M B :=
  fun s =>
    match c s with
    | (Returns a, s') => k a s'
    | (Panics, s') => (Panics, s')
    | (OutOfFuel, s') => (OutOfFuel, s')
    end.

(** A pure call whose outcome decides whether the caller goes on. *)
Definition call {A} (o : Outcome A) : M A := fun s => (o, s).

(** [fb.AddMessage(mb)] and [sb.AddMethod(method)]. *)
Definition AddMessage (mb : MessageBuilder) : M unit :=
  fun s => (Returns tt, {| fb := fb s ++ [mb]; sb := sb s |}).

Definition AddMethod (m : MethodBuilder) : M unit :=
  fun s => (Returns tt, {| fb := fb s; sb := sb s ++ [m] |}).

Declare Scope gen_scope.
Delimit Scope gen_scope with gen.
Notation "x <- c ;; k" := (bind c (fun x => k))
  (at level 61, c at next level, right associativity) : gen_scope.
Notation "c ;;; k" := (bind c (fun _ => k))
  (at level 61, right associativity) : gen_scope.

(** Go's [(value, error)] result of [GeneratedResourceMessage]. *)
Inductive result (A : Type) : Type :=
| Ok (a : A)
| Err (e : error).

Arguments Err {A}.

(* ------------------------------------------------------------------ *)
(** ** Field helpers                                                   *)
(* ------------------------------------------------------------------ *)

Section Compiler.

Variable K : constants.Numbers.
Variable registry : desc.Registry.

Definition addParentField (r : ParsedResource) (mb : MessageBuilder)
  : MessageBuilder :=
  let o := {| descriptorpb.E_FieldBehavior :=
                [annotations.FieldBehavior_REQUIRED];
              descriptorpb.E_ResourceReference :=
                Some {| annotations.Type_ := "";
                        annotations.ChildType := "" |} |} in
  let f := SetFieldOptions
             (SetFieldComments
                (SetNumber
                   (NewField constants.FIELD_PARENT_NAME FieldTypeString)
                   constants.FIELD_PARENT_NUMBER)
                ("A field for the parent of " ++ Kind r))
             o in
  AddField mb f.

(** The format string has no verb for its argument, so [fmt.Sprintf]
    appends the argument in its [EXTRA] form. *)
Definition addIdField (r : ParsedResource) (mb : MessageBuilder)
  : MessageBuilder :=
  let f := SetFieldComments
             (SetNumber (NewField constants.FIELD_ID_NAME FieldTypeString)
                        constants.FIELD_ID_NUMBER)
             ("An id that uniquely identifies the resource within the collection"
                ++ "%!(EXTRA string=" ++ Kind r ++ ")") in
  AddField mb f.

Definition addPathField (r : ParsedResource) (mb : MessageBuilder)
  : MessageBuilder :=
  let o := {| descriptorpb.E_FieldBehavior :=
                [annotations.FieldBehavior_REQUIRED];
              descriptorpb.E_ResourceReference :=
                Some {| annotations.Type_ := ResourceType r;
                        annotations.ChildType := "" |} |} in
  let f := SetFieldOptions
             (SetFieldComments
                (SetNumber
                   (NewField constants.FIELD_PATH_NAME FieldTypeString)
                   constants.FIELD_PATH_NUMBER)
                "The globally unique identifier for the resource")
             o in
  AddField mb f.

Definition addResourceField (r : ParsedResource)
           (resourceMb mb : MessageBuilder) : MessageBuilder :=
  let o := {| descriptorpb.E_FieldBehavior :=
                [annotations.FieldBehavior_REQUIRED];
              descriptorpb.E_ResourceReference := None |} in
  let f := SetFieldOptions
             (SetFieldComments
                (SetNumber
                   (NewField (strings.ToLower (Kind r))
                             (FieldTypeMessage (MsgName resourceMb)))
                   (constants.FIELD_RESOURCE_NUMBER K))
                "The resource to perform the operation on.")
             o in
  AddField mb f.

Definition addResourcesField (r : ParsedResource)
           (resourceMb mb : MessageBuilder) : MessageBuilder :=
  let f := SetRepeated
             (SetFieldComments
                (SetNumber
                   (NewField "results" (FieldTypeMessage (MsgName resourceMb)))
                   (constants.FIELD_RESOURCES_NUMBER K))
                ("A list of " ++ Plural r)) in
  AddField mb f.

Definition addPageToken (r : ParsedResource) (mb : MessageBuilder)
  : MessageBuilder :=
  let f := SetFieldComments
             (SetNumber
                (NewField constants.FIELD_PAGE_TOKEN_NAME FieldTypeString)
                (constants.FIELD_PAGE_TOKEN_NUMBER K))
             "The page token indicating the starting point of the page" in
  AddField mb f.

Definition addNextPageToken (r : ParsedResource) (mb : MessageBuilder)
  : MessageBuilder :=
  let f := SetFieldComments
             (SetNumber
                (NewField constants.FIELD_NEXT_PAGE_TOKEN_NAME FieldTypeString)
                (constants.FIELD_NEXT_PAGE_TOKEN_NUMBER K))
             "The page token indicating the ending point of this response." in
  AddField mb f.

(* ------------------------------------------------------------------ *)
(** ** The resource message                                            *)
(* ------------------------------------------------------------------ *)

(** The [switch p.Type] of [GeneratedResourceMessage]. *)
Definition fieldTypeOf (t : schema.Type_) : result FieldType :=
  match t with
  | schema.Type_STRING => Ok FieldTypeString
  | schema.Type_INT32 => Ok FieldTypeInt32
  | schema.Type_INT64 => Ok FieldTypeInt64
  | schema.Type_BOOLEAN => Ok FieldTypeBool
  | schema.Type_DOUBLE => Ok FieldTypeDouble
  | schema.Type_FLOAT => Ok FieldTypeFloat
  | schema.Type_other _ =>
      Err (errorString ("proto mapping for type " ++ schema.Type_String t
                          ++ " not found"))
  end.

(** The [for _, p := range ...] loop: it returns at the first field whose
    type has no mapping. *)
Fixpoint addFields (ps : list ParsedProperty) (mb : MessageBuilder)
  : result MessageBuilder :=
  match ps with
  | [] => Ok mb
  | p :: rest =>
      match fieldTypeOf (parser.Type_ p) with
      | Err e => Err e
      | Ok typ =>
          addFields rest
            (AddField mb
               (SetFieldComments
                  (SetNumber (NewField (Name p) typ) (Number p))
                  ("Field for " ++ Name p ++ ".")))
      end
  end.

Definition GeneratedResourceMessage (r : ParsedResource)
  : result MessageBuilder :=
  let mb := NewMessage (Kind r) in
  match addFields (GetFieldsSortedByNumber r) mb with
  | Err e => Err e
  | Ok mb => Ok (SetOptions mb descriptorpb.emptyMessageOptions)
  end.

(* ------------------------------------------------------------------ *)
(** ** Per-method generators                                           *)
(* ------------------------------------------------------------------ *)

Local Open Scope gen_scope.

Definition AddCreate (fuel : nat) (r : ParsedResource)
           (resourceMb : MessageBuilder) : M (option error) :=
  let mb := NewMessage ("Create" ++ Kind r ++ "Request") in
  let mb := SetComments mb
              ("A Create request for a  " ++ Kind r ++ " resource.") in
  let mb := addParentField r mb in
  let mb := addIdField r mb in
  let mb := addResourceField r resourceMb mb in
  AddMessage mb ;;;
  let method := NewMethod ("Create" ++ Kind r)
                  (RpcTypeMessage (MsgName mb) false)
                  (RpcTypeMessage (MsgName resourceMb) false) in
  let method := SetMethodComments method
                  ("An aep-compliant Create method for " ++ Kind r ++ ".") in
  post <- call (generateParentHTTPPath fuel r) ;;
  let options :=
    {| descriptorpb.E_Http :=
         Some {| annotations.Pattern := annotations.HttpRule_Post post;
                 annotations.Body := strings.ToLower (Kind r) |};
       descriptorpb.E_MethodSignature :=
         Some [strings.Join [constants.FIELD_PARENT_NAME;
                             strings.ToLower (Kind r)] ","] |} in
  AddMethod (SetMethodOptions method options) ;;;
  ret None.

Definition AddGet (fuel : nat) (r : ParsedResource)
           (resourceMb : MessageBuilder) : M (option error) :=
  let mb := NewMessage ("Get" ++ Kind r ++ "Request") in
  let mb := SetComments mb
              ("Request message for the Get" ++ Kind r ++ " method") in
  let mb := addPathField r mb in
  AddMessage mb ;;;
  let method := NewMethod ("Get" ++ Kind r)
                  (RpcTypeMessage (MsgName mb) false)
                  (RpcTypeMessage (MsgName resourceMb) false) in
  let method := SetMethodComments method
                  ("An aep-compliant Get method for " ++ Kind r ++ ".") in
  path <- call (generateHTTPPath fuel r) ;;
  let options :=
    {| descriptorpb.E_Http :=
         Some {| annotations.Pattern :=
                   annotations.HttpRule_Get ("/{path=" ++ path ++ "}");
                 annotations.Body := "" |};
       descriptorpb.E_MethodSignature :=
         Some [strings.Join [constants.FIELD_PATH_NAME] ","] |} in
  AddMethod (SetMethodOptions method options) ;;;
  ret None.

(** The error of the field-mask load is assigned to the blank identifier;
    the descriptor, nil or not, goes into the field type. *)
Definition AddUpdate (fuel : nat) (r : ParsedResource)
           (resourceMb : MessageBuilder) : M (option error) :=
  let mb := NewMessage ("Update" ++ Kind r ++ "Request") in
  let mb := SetComments mb
              ("Request message for the Update" ++ Kind r ++ " method") in
  let mb := addPathField r mb in
  let mb := addResourceField r resourceMb mb in
  let fieldMaskDescriptor :=
    fst (desc.LoadMessageDescriptorForType registry
           "fieldmaskpb.FieldMask") in
  let mb := AddField mb
              (SetFieldComments
                 (SetNumber
                    (NewField constants.FIELD_UPDATE_MASK_NAME
                       (FieldTypeImportedMessage fieldMaskDescriptor))
                    (constants.FIELD_UPDATE_MASK_NUMBER K))
                 "The update mask for the resource") in
  AddMessage mb ;;;
  let method := NewMethod ("Update" ++ Kind r)
                  (RpcTypeMessage (MsgName mb) false)
                  (RpcTypeMessage (MsgName resourceMb) false) in
  let method := SetMethodComments method
                  ("An aep-compliant Update method for " ++ Kind r ++ ".") in
  path <- call (generateHTTPPath fuel r) ;;
  let options :=
    {| descriptorpb.E_Http :=
         Some {| annotations.Pattern :=
                   annotations.HttpRule_Patch
                     ("/{" ++ strings.ToLower (Kind r) ++ ".path="
                           ++ path ++ "}");
                 annotations.Body := strings.ToLower (Kind r) |};
       descriptorpb.E_MethodSignature :=
         Some [strings.Join [strings.ToLower (Kind r);
                             constants.FIELD_UPDATE_MASK_NAME] ","] |} in
  AddMethod (SetMethodOptions method options) ;;;
  ret None.

(** The request message is registered before the empty-message load; a
    load error is returned as it is. *)
Definition AddDelete (fuel : nat) (r : ParsedResource)
           (resourceMb : MessageBuilder) : M (option error) :=
  let mb := NewMessage ("Delete" ++ Kind r ++ "Request") in
  let mb := SetComments mb
              ("Request message for the Delete" ++ Kind r ++ " method") in
  let mb := addPathField r mb in
  AddMessage mb ;;;
  let (emptyMd, err) :=
    desc.LoadMessageDescriptor registry "google.protobuf.Empty" in
  match err with
  | Some e => ret (Some e)
  | None =>
      let method := NewMethod ("Delete" ++ Kind r)
                      (RpcTypeMessage (MsgName mb) false)
                      (RpcTypeImportedMessage emptyMd false) in
      let method := SetMethodComments method
                      ("An aep-compliant Delete method for " ++ Kind r
                         ++ ".") in
      path <- call (generateHTTPPath fuel r) ;;
      let options :=
        {| descriptorpb.E_Http :=
             Some {| annotations.Pattern :=
                       annotations.HttpRule_Delete
                         ("/{path=" ++ path ++ "}");
                     annotations.Body := "" |};
           descriptorpb.E_MethodSignature :=
             Some [strings.Join [constants.FIELD_PATH_NAME] ","] |} in
      AddMethod (SetMethodOptions method options) ;;;
      ret None
  end.

Definition AddList (fuel : nat) (r : ParsedResource)
           (resourceMb : MessageBuilder) : M (option error) :=
  let reqMb := NewMessage ("List" ++ Kind r ++ "Request") in
  let reqMb := SetComments reqMb
                 ("Request message for the List" ++ Kind r ++ " method") in
  let reqMb := addParentField r reqMb in
  let reqMb := addPageToken r reqMb in
  let reqMb := AddField reqMb
                 (SetFieldComments
                    (SetNumber
                       (NewField constants.FIELD_MAX_PAGE_SIZE_NAME
                                 FieldTypeInt32)
                       (constants.FIELD_MAX_PAGE_SIZE_NUMBER K))
                    "The maximum number of resources to return in a single page.") in
  AddMessage reqMb ;;;
  let respMb := NewMessage ("List" ++ Kind r ++ "Response") in
  let respMb := SetComments respMb
                  ("Response message for the List" ++ Kind r ++ " method") in
  let respMb := addResourcesField r resourceMb respMb in
  let respMb := addNextPageToken r respMb in
  AddMessage respMb ;;;
  let method := NewMethod ("List" ++ Kind r)
                  (RpcTypeMessage (MsgName reqMb) false)
                  (RpcTypeMessage (MsgName respMb) false) in
  let method := SetMethodComments method
                  ("An aep-compliant List method for " ++ Plural r ++ ".") in
  get <- call (generateParentHTTPPath fuel r) ;;
  let options :=
    {| descriptorpb.E_Http :=
         Some {| annotations.Pattern := annotations.HttpRule_Get get;
                 annotations.Body := "" |};
       descriptorpb.E_MethodSignature :=
         Some [strings.Join [constants.FIELD_PARENT_NAME] ","] |} in
  AddMethod (SetMethodOptions method options) ;;;
  ret None.

Definition AddGlobalList (fuel : nat) (r : ParsedResource)
           (resourceMb : MessageBuilder) : M (option error) :=
  let reqMb := NewMessage ("GlobalList" ++ Kind r ++ "Request") in
  let reqMb := SetComments reqMb
                 ("Request message for the GlobalList" ++ Kind r
                    ++ " method") in
  let reqMb := addPathField r reqMb in
  let reqMb := addPageToken r reqMb in
  AddMessage reqMb ;;;
  let respMb := NewMessage ("GlobalList" ++ Kind r ++ "Response") in
  let respMb := SetComments respMb
                  ("Response message for the GlobalList" ++ Kind r
                     ++ " method") in
  let respMb := addResourcesField r resourceMb respMb in
  let respMb := addNextPageToken r respMb in
  AddMessage respMb ;;;
  let method := NewMethod ("GlobalList" ++ Kind r)
                  (RpcTypeMessage (MsgName reqMb) false)
                  (RpcTypeMessage (MsgName respMb) false) in
  let options :=
    {| descriptorpb.E_Http :=
         Some {| annotations.Pattern :=
                   annotations.HttpRule_Get
                     ("/{path=--/" ++ strings.ToLower (Kind r) ++ "}");
                 annotations.Body := "" |};
       descriptorpb.E_MethodSignature := None |} in
  AddMethod (SetMethodOptions method options) ;;;
  ret None.

Definition AddApply (fuel : nat) (r : ParsedResource)
           (resourceMb : MessageBuilder) : M (option error) :=
  let mb := NewMessage ("Apply" ++ Kind r ++ "Request") in
  let mb := SetComments mb
              ("Request message for the Apply" ++ Kind r ++ " method") in
  let mb := addPathField r mb in
  let mb := addResourceField r resourceMb mb in
  AddMessage mb ;;;
  let method := NewMethod ("Apply" ++ Kind r)
                  (RpcTypeMessage (MsgName mb) false)
                  (RpcTypeMessage (MsgName resourceMb) false) in
  let method := SetMethodComments method
                  ("An aep-compliant Apply method for " ++ Plural r ++ ".") in
  path <- call (generateHTTPPath fuel r) ;;
  let options :=
    {| descriptorpb.E_Http :=
         Some {| annotations.Pattern :=
                   annotations.HttpRule_Put ("/{path=" ++ path ++ "}");
                 annotations.Body := strings.ToLower (Kind r) |};
       descriptorpb.E_MethodSignature := None |} in
  AddMethod (SetMethodOptions method options) ;;;
  ret None.

(* ------------------------------------------------------------------ *)
(** ** AddResource                                                     *)
(* ------------------------------------------------------------------ *)

(** One block of [AddResource]:
<<
    if r.Methods.X != nil {
        err = AddX(r, resourceMb, fb, sb)
        if err != nil { return err }
    }
>>
    followed by the rest of the function. *)
Definition ifEnabled (enabled : bool) (gen rest : M (option error))
  : M (option error) :=
  if enabled then
    err <- gen ;;
    match err with
    | Some e => ret (Some e)
    | None => rest
    end
  else rest.

Definition AddResource (fuel : nat) (r : ParsedResource)
  : M (option error) :=
  match GeneratedResourceMessage r with
  | Err err =>
      ret (Some (Errorf_w ("unable to generate resource " ++ Kind r ++ ": ")
                          err))
  | Ok resourceMb =>
      let resourceMb :=
        SetComments resourceMb ("A " ++ Kind r ++ " resource.") in
      AddMessage resourceMb ;;;
      match Methods r with
      | None => ret None
      | Some m =>
          ifEnabled (schema.Create m) (AddCreate fuel r resourceMb)
         (ifEnabled (schema.Read m) (AddGet fuel r resourceMb)
         (ifEnabled (schema.Update m) (AddUpdate fuel r resourceMb)
         (ifEnabled (schema.Delete m) (AddDelete fuel r resourceMb)
         (ifEnabled (schema.List m) (AddList fuel r resourceMb)
         (ifEnabled (schema.GlobalList m) (AddGlobalList fuel r resourceMb)
         (ifEnabled (schema.Apply m) (AddApply fuel r resourceMb)
         (ret None)))))))
      end
  end.

End Compiler.

(* ------------------------------------------------------------------ *)
(** ** What the specification prescribes                               *)
(* ------------------------------------------------------------------ *)

(** The seven standard methods of the specification's table. *)
Inductive MethodKind : Type :=
| Create | Read | Update | Delete | List | GlobalList | Apply.

Definition allMethodKinds : list MethodKind :=
  [Create; Read; Update; Delete; List; GlobalList; Apply].

Definition isEnabled (m : schema.Methods) (k : MethodKind) : bool :=
  match k with
  | Create => schema.Create m
  | Read => schema.Read m
  | Update => schema.Update m
  | Delete => schema.Delete m
  | List => schema.List m
  | GlobalList => schema.GlobalList m
  | Apply => schema.Apply m
  end.

(** [r.Methods != nil && r.Methods.X != nil]. *)
Definition enabledIn (r : ParsedResource) (k : MethodKind) : bool :=
  match Methods r with
  | None => false
  | Some m => isEnabled m k
  end.

(** The generator that [AddResource] calls for a method kind. *)
Definition generatorOf (K : constants.Numbers) (registry : desc.Registry)
           (k : MethodKind)
  : nat -> ParsedResource -> MessageBuilder -> M (option error) :=
  match k with
  | Create => AddCreate K
  | Read => AddGet
  | Update => AddUpdate K registry
  | Delete => AddDelete registry
  | List => AddList K
  | GlobalList => AddGlobalList K
  | Apply => AddApply K
  end.

(** The method blocks of [AddResource] for a list of kinds, in order. *)
Fixpoint runMethods (K : constants.Numbers) (registry : desc.Registry)
         (fuel : nat) (r : ParsedResource) (resourceMb : MessageBuilder)
         (m : schema.Methods) (ks : list MethodKind) : M (option error) :=
  match ks with
  | [] => ret None
  | k :: rest =>
      ifEnabled (isEnabled m k) (generatorOf K registry k fuel r resourceMb)
                (runMethods K registry fuel r resourceMb m rest)
  end.

(** Name prefix of the messages and of the RPC of a method kind. *)
Definition rpcPrefix (k : MethodKind) : string :=
  match k with
  | Create => "Create"
  | Read => "Get"
  | Update => "Update"
  | Delete => "Delete"
  | List => "List"
  | GlobalList => "GlobalList"
  | Apply => "Apply"
  end.

(** The messages of the table of section 4.2: a request for every method,
    and a response as well for the two paginated ones. *)
Definition prescribedMessages (k : MethodKind) (kind : string)
  : list string :=
  match k with
  | List | GlobalList =>
      [rpcPrefix k ++ kind ++ "Request"; rpcPrefix k ++ kind ++ "Response"]
  | _ => [rpcPrefix k ++ kind ++ "Request"]
  end.

(** The RPC of the table: its name, its request message and its response,
    which is the resource, the response message, or (for Delete) an
    imported message, written [None]. *)
Definition prescribedRpc (k : MethodKind) (kind : string)
  : string * string * option string :=
  (rpcPrefix k ++ kind,
   rpcPrefix k ++ kind ++ "Request",
   match k with
   | Delete => None
   | List | GlobalList => Some (rpcPrefix k ++ kind ++ "Response")
   | _ => Some kind
   end).

Definition rpcTypeName (t : RpcType) : option string :=
  match t with
  | RpcTypeMessage mb _ => Some mb
  | RpcTypeImportedMessage _ _ => None
  end.

(** Name, request and response of a registered method, in the shape of
    [prescribedRpc]. *)
Definition rpcSignature (m : MethodBuilder)
  : option (string * string * option string) :=
  match MethodReq m with
  | RpcTypeMessage req _ => Some (MethodName m, req, rpcTypeName (MethodResp m))
  | RpcTypeImportedMessage _ _ => None
  end.

Definition enabledMessages (r : ParsedResource) (ks : list MethodKind)
  : list string :=
  flat_map (fun k => if enabledIn r k then prescribedMessages k (Kind r)
                     else []) ks.

Definition enabledRpcs (r : ParsedResource) (ks : list MethodKind)
  : list (option (string * string * option string)) :=
  flat_map (fun k => if enabledIn r k then [Some (prescribedRpc k (Kind r))]
                     else []) ks.

(** The path template of a registered method. *)
Definition httpPath (m : MethodBuilder) : option annotations.HttpPattern :=
  match MethodOptions m with
  | Some o => option_map annotations.Pattern (descriptorpb.E_Http o)
  | None => None
  end.

(** Section 4.3 of the specification: the plurals along the chain of first
    parents, outermost first, each followed by a wildcard. *)
Fixpoint ancestorPlurals (r : ParsedResource) : list string :=
  match Parents r with
  | Some p :: _ => ancestorPlurals p ++ [strings.ToLower (Plural r)]
  | _ => [strings.ToLower (Plural r)]
  end.

Definition collectionPath_spec (r : ParsedResource) : string :=
  strings.Join (ancestorPlurals r) "/*/" ++ "/*".

(** Number of first-parent links above a resource. *)
Fixpoint depth (r : ParsedResource) : nat :=
  match Parents r with
  | Some p :: _ => S (depth p)
  | _ => O
  end.

(** Field numbers and names of a message, and what a call added to the
    file builder. *)
Definition fieldNumbers (mb : MessageBuilder) : list Z :=
  map FieldNumber (MsgFields mb).



Definition messagesAdded (before after : Builders) : list MessageBuilder :=
  skipn (length (fb before)) (fb after).

(** The field numbers of the messages of a method kind, from the reserved
    table. *)
Definition reservedLayout (K : constants.Numbers) (k : MethodKind)
  : list (list Z) :=
  match k with
  | Create => [[constants.FIELD_PARENT_NUMBER; constants.FIELD_ID_NUMBER;
                constants.FIELD_RESOURCE_NUMBER K]]
  | Read => [[constants.FIELD_PATH_NUMBER]]
  | Update => [[constants.FIELD_PATH_NUMBER;
                constants.FIELD_RESOURCE_NUMBER K;
                constants.FIELD_UPDATE_MASK_NUMBER K]]
  | Delete => [[constants.FIELD_PATH_NUMBER]]
  | List => [[constants.FIELD_PARENT_NUMBER;
              constants.FIELD_PAGE_TOKEN_NUMBER K;
              constants.FIELD_MAX_PAGE_SIZE_NUMBER K];
             [constants.FIELD_RESOURCES_NUMBER K;
              constants.FIELD_NEXT_PAGE_TOKEN_NUMBER K]]
  | GlobalList => [[constants.FIELD_PATH_NUMBER;
                    constants.FIELD_PAGE_TOKEN_NUMBER K];
                   [constants.FIELD_RESOURCES_NUMBER K;
                    constants.FIELD_NEXT_PAGE_TOKEN_NUMBER K]]
  | Apply => [[constants.FIELD_PATH_NUMBER;
               constants.FIELD_RESOURCE_NUMBER K]]
  end.


(* ------------------------------------------------------------------ *)
(** ** Sample inputs                                                   *)
(* ------------------------------------------------------------------ *)

Definition noMethods : schema.Methods :=
  {| schema.Create := false; schema.Read := false; schema.Update := false;
     schema.Delete := false; schema.List := false;
     schema.GlobalList := false; schema.Apply := false |}.

Definition resource (kind plural : string) (fields : list ParsedProperty)
           (m : option schema.Methods)
           (parents : list (option ParsedResource)) : ParsedResource :=
  {| Kind := kind; Plural := plural;
     ResourceType := "bookstore.example.com/" ++ kind;
     Fields := fields; Methods := m; Parents := parents |}.

Definition isbn : ParsedProperty :=
  {| Name := "isbn"; parser.Type_ := schema.Type_STRING; Number := 3 |}.

Definition price : ParsedProperty :=
  {| Name := "price"; parser.Type_ := schema.Type_FLOAT; Number := 1 |}.

Definition cover : ParsedProperty :=
  {| Name := "cover"; parser.Type_ := schema.Type_other "OBJECT";
     Number := 2 |}.

(** Store > Shelf > Book, a chain of depth two. *)
Definition store : ParsedResource := resource "Store" "stores" [] None [].

Definition shelfInStore : ParsedResource :=
  resource "Shelf" "shelves" [] None [Some store].

Definition bookInStore : ParsedResource :=
  resource "Book" "books" [isbn] None [Some shelfInStore].

(** Shelf > Book, both list-enabled. *)
Definition listOnly : schema.Methods :=
  {| schema.Create := false; schema.Read := false; schema.Update := false;
     schema.Delete := false; schema.List := true;
     schema.GlobalList := false; schema.Apply := false |}.

Definition shelf : ParsedResource :=
  resource "Shelf" "shelves" [] (Some listOnly) [].

Definition book : ParsedResource :=
  resource "Book" "books" [isbn] (Some listOnly) [Some shelf].

(** A parentless resource whose plural is capitalised. *)
Definition createOnly : schema.Methods :=
  {| schema.Create := true; schema.Read := false; schema.Update := false;
     schema.Delete := false; schema.List := false;
     schema.GlobalList := false; schema.Apply := false |}.


(** A book with a field of an unmapped type, Create enabled. *)
Definition coverBook : ParsedResource :=
  resource "Book" "books" [isbn; cover; price] (Some createOnly) [].

(** A top-level book with Create, Update, Delete and List enabled. *)
Definition crudMethods : schema.Methods :=
  {| schema.Create := true; schema.Read := false; schema.Update := true;
     schema.Delete := true; schema.List := true;
     schema.GlobalList := false; schema.Apply := false |}.

Definition crudBook : ParsedResource :=
  resource "Book" "books" [isbn; price] (Some crudMethods) [].



Definition sampleNumbers : constants.Numbers :=
  {| constants.FIELD_RESOURCE_NUMBER := 5;
     constants.FIELD_RESOURCES_NUMBER := 6;
     constants.FIELD_UPDATE_MASK_NUMBER := 7;
     constants.FIELD_PAGE_TOKEN_NUMBER := 8;
     constants.FIELD_MAX_PAGE_SIZE_NUMBER := 9;
     constants.FIELD_NEXT_PAGE_TOKEN_NUMBER := 10 |}.

(** A registry in which both well-known types are found. *)
Definition workingRegistry : desc.Registry :=
  {| desc.LoadMessageDescriptorForType :=
       fun _ => (Some "google.protobuf.FieldMask", None);
     desc.LoadMessageDescriptor := fun name => (Some name, None) |}.

(** A registry in which every load fails. *)
Definition notLoaded : error := errorString "descriptor not registered".

Definition failingRegistry : desc.Registry :=
  {| desc.LoadMessageDescriptorForType := fun _ => (None, Some notLoaded);
     desc.LoadMessageDescriptor := fun _ => (None, Some notLoaded) |}.

(** The resource message with the comment [AddResource] gives it. *)
Definition withResourceComment (r : ParsedResource) (mb : MessageBuilder)
  : MessageBuilder :=
  SetComments mb ("A " ++ Kind r ++ " resource.").



(** The name of the empty message that [AddDelete] loads. *)
Definition emptyName : string := "google.protobuf.Empty".

(* ------------------------------------------------------------------ *)
(** ** References between generated artifacts                          *)
(* ------------------------------------------------------------------ *)


(** The builders extended by what another pair of builders holds. *)
Definition extend (st d : Builders) : Builders :=
  {| fb := fb st ++ fb d; sb := sb st ++ sb d |}.

(** The messages of the file that a field, a message, an RPC type and a
    method refer to by name. *)
Definition refsOfField (f : FieldBuilder) : list string :=
  match FieldTyp f with
  | FieldTypeMessage n => [n]
  | _ => []
  end.

Definition refsOfMessage (mb : MessageBuilder) : list string :=
  flat_map refsOfField (MsgFields mb).

Definition refsOfRpc (t : RpcType) : list string :=
  match t with
  | RpcTypeMessage n _ => [n]
  | RpcTypeImportedMessage _ _ => []
  end.

Definition refsOfMethod (m : MethodBuilder) : list string :=
  (refsOfRpc (MethodReq m) ++ refsOfRpc (MethodResp m))%list.

Definition references (st : Builders) : list string :=
  (flat_map refsOfMessage (fb st) ++ flat_map refsOfMethod (sb st))%list.

(** Every message referred to from the builders is registered in the file
    builder. *)
Definition wellReferenced (st : Builders) : Prop :=
  incl (references st) (map MsgName (fb st)).

(** Length and first byte of a name. *)
Definition nameKey (s : string) : nat * option ascii :=
  (String.length s, match s with
                    | EmptyString => None
                    | String c _ => Some c
                    end).


(** The verb, path and body of a registered method. *)
Definition httpRule (m : MethodBuilder) : option annotations.HttpRule :=
  match MethodOptions m with
  | Some o => descriptorpb.E_Http o
  | None => None
  end.

(* ------------------------------------------------------------------ *)
(** ** The example service (example/service/service.go)                *)
(* ------------------------------------------------------------------ *)

Module service.

(** [fmt.Sprintf("%v", n)] for a non-negative [int]. *)
Definition Sprint_int (n : nat) : string :=
  NilEmpty.string_of_uint (Nat.to_uint n).

(** [codes.NotFound] is the only code the service uses. *)
Inductive Code : Type := codes_NotFound.

(** The error of [status.Errorf(code, format, arg)].  The message is kept
    as its format and its argument: the text that [%q] prints is not
    modelled. *)
Record Status : Type := {
  StatusCode : Code;
  StatusFormat : string;
  StatusArg : string
}.

Section Bookstore.

(** The fields of [bpb.Book] other than [Id] and [Path]; the service
    copies them and never looks at them. *)
Variable Payload : Type.

Record Book : Type := {
  Id : string;
  Path : string;
  Rest : Payload
}.

(** [bpb.CreateBookRequest], [bpb.ApplyBookRequest], [bpb.DeleteBookRequest]
    and [bpb.ReadBookRequest], with the fields the service reads.
    [Resource] is a pointer and may be nil. *)
Record CreateBookRequest : Type := {
  Create_Id : string;
  Create_Resource : option Book
}.

Record ApplyBookRequest : Type := {
  Apply_Path : string;
  Apply_Resource : option Book
}.

Record DeleteBookRequest : Type := { Delete_Path : string }.

Record ReadBookRequest : Type := { Read_Path : string }.

(** A non-nil [map[string]*bpb.Book]: an association list that holds each
    key at most once.  The stored pointers are never nil: the service only
    stores books it has just written to. *)
Definition Map : Type := list (string * Book).

(** [m[k]] with its [found] flag. *)
Fixpoint mapLookup (k : string) (m : Map) : option Book :=
  match m with
  | [] => None
  | (k', v) :: rest => if (k =? k')%string then Some v else mapLookup k rest
  end.

(** [delete(m, k)]. *)
Fixpoint mapDelete (k : string) (m : Map) : Map :=
  match m with
  | [] => []
  | (k', v) :: rest =>
      if (k =? k')%string then mapDelete k rest
      else (k', v) :: mapDelete k rest
  end.

(** [m[k] = v]. *)
Definition mapStore (k : string) (v : Book) (m : Map) : Map :=
  (k, v) :: mapDelete k m.

(** The package variable [bookDatabase]: nil until [StartServer] makes the
    map. *)
Definition Database : Type := option Map.

(** [len(bookDatabase)] and [bookDatabase[k]]; both are defined on the nil
    map. *)
Definition len (db : Database) : nat :=
  match db with
  | None => O
  | Some m => length m
  end.

Definition lookup (k : string) (db : Database) : option Book :=
  match db with
  | None => None
  | Some m => mapLookup k m
  end.

(** The first statement of [StartServer]:
    [bookDatabase = make(map[string]*bpb.Book)]. *)
Definition StartServer_database : Database := Some [].

(** [CreateBook].  The clone of a nil [r.Resource] is nil, and writing its
    [Id] panics; assigning into the nil map panics.  Both happen before
    anything is stored.  The log line and the assignment to [r.Id], which
    only the caller's request sees, are left out. *)
Definition CreateBook (r : CreateBookRequest) (bookDatabase : Database)
  : Outcome Book * Database :=
  match Create_Resource r with
  | None => (Panics, bookDatabase)
  | Some resource =>
      let id := if (Create_Id r =? "")%string
                then Sprint_int (len bookDatabase + 1)
                else Create_Id r in
      let path := "books/" ++ id in
      let book := {| Id := id; Path := path; Rest := Rest resource |} in
      match bookDatabase with
      | None => (Panics, bookDatabase)
      | Some m => (Returns book, Some (mapStore path book m))
      end
  end.

(** [ApplyBook].  [originalResource] is nil when the path is not in the
    map, and reading its [Id] panics; so does writing to the clone of a
    nil [r.Resource]. *)
Definition ApplyBook (r : ApplyBookRequest) (bookDatabase : Database)
  : Outcome Book * Database :=
  match lookup (Apply_Path r) bookDatabase, Apply_Resource r with
  | Some originalResource, Some resource =>
      let book := {| Id := Id originalResource;
                     Path := Path originalResource;
                     Rest := Rest resource |} in
      match bookDatabase with
      | None => (Panics, bookDatabase)
      | Some m => (Returns book, Some (mapStore (Apply_Path r) book m))
      end
  | _, _ => (Panics, bookDatabase)
  end.

(** [DeleteBook]: [delete] on the nil map does nothing.  The returned
    [emptypb.Empty] carries no data. *)
Definition DeleteBook (r : DeleteBookRequest) (bookDatabase : Database)
  : Database :=
  match bookDatabase with
  | None => None
  | Some m => Some (mapDelete (Delete_Path r) m)
  end.

(** [ReadBook]: the stored book, or the [NotFound] status. *)
Definition ReadBook (r : ReadBookRequest) (bookDatabase : Database)
  : Book + Status :=
  match lookup (Read_Path r) bookDatabase with
  | Some b => inl b
  | None => inr {| StatusCode := codes_NotFound;
                   StatusFormat := "book %q not found";
                   StatusArg := Read_Path r |}
  end.

(** Each key of the map occurs once. *)
Definition uniqueKeys (m : Map) : Prop := NoDup (map fst m).

(** Every book is stored under its own path, which is [books/] followed
    by its id. *)
Definition consistent (db : Database) : Prop :=
  forall k b, lookup k db = Some b -> Path b = k /\ k = "books/" ++ Id b.

(** What the service relies on between calls: unique keys, and every book
    under its own path. *)
Definition wellFormed (db : Database) : Prop :=
  consistent db /\
  match db with
  | None => True
  | Some m => uniqueKeys m
  end.

End Bookstore.

End service.

(** A small database for the examples: one book, created under the id 2. *)
Definition novel : service.Book string :=
  {| service.Id := ""; service.Path := ""; service.Rest := "a novel" |}.

Definition atlas : service.Book string :=
  {| service.Id := ""; service.Path := ""; service.Rest := "an atlas" |}.

Definition oneBook : service.Database string :=
  snd (service.CreateBook
         {| service.Create_Id := "2"; service.Create_Resource := Some novel |}
         (service.StartServer_database string)).

(* ------------------------------------------------------------------ *)
(** ** Proof steps shared by the generator lemmas                      *)
(* ------------------------------------------------------------------ *)

Ltac unfold_generators :=
  unfold generatorOf, AddCreate, AddGet, AddUpdate, AddDelete, AddList,
    AddGlobalList, AddApply, bind, call, AddMessage, AddMethod, ret.

(** Case analysis on everything the outcome of a generator depends on: the
    empty-message load and the outcome of the path helper. *)
Ltac split_generator :=
  repeat match goal with
    | |- context [desc.LoadMessageDescriptor ?reg ?n] =>
        destruct (desc.LoadMessageDescriptor reg n) as [? [?|]]
    | |- context [generateHTTPPath ?f ?r] =>
        destruct (generateHTTPPath f r)
    | |- context [generateParentHTTPPath ?f ?r] =>
        destruct (generateParentHTTPPath f r)
    end.

(** A reference is the resource message, registered earlier, or one of
    the messages just added. *)
Ltac resolve_reference Hres :=
  match goal with
  | Hx : In ?x _ |- In ?x (map MsgName (fb ?st ++ _)) =>
      rewrite map_app; apply in_or_app; cbn in Hx |- *;
      repeat (destruct Hx as [Hx|Hx];
              [subst x; first [left; exact Hres | right; auto 10]|]);
      contradiction
  end.

(* ------------------------------------------------------------------ *)
(** ** Properties of path generation                                   *)
(* ------------------------------------------------------------------ *)

Lemma string_app_assoc (a b c : string) : (a ++ b) ++ c = a ++ (b ++ c).
Proof.
  induction a as [|x a IH]; simpl; [reflexivity | now rewrite IH].
Qed.

(** Once the loop is entered on a parent that has parents of its own, no
    amount of fuel makes it return: the test [len(p.Parents) == 0] is
    asked of the same [p] again and again. *)
Lemma parentLoop_stuck (pr : ParsedResource) :
  Parents pr <> [] ->
  forall fuel elements, parentLoop fuel (Some pr) elements = OutOfFuel.
Proof.
  intros Hne fuel.
  induction fuel as [|fuel IH]; intros elements; simpl.
  - reflexivity.
  - destruct (Parents pr) as [|g rest] eqn:Hp.
    + now contradiction Hne.
    + simpl. apply IH.
Qed.

Lemma parentLoop_once (pr : ParsedResource) (fuel : nat)
      (elements : list string) :
  Parents pr = [] ->
  parentLoop (S fuel) (Some pr) elements
  = Returns (strings.ToLower (Plural pr) :: elements).
Proof.
  intros Hp. simpl. now rewrite Hp.
Qed.




Lemma generateHTTPPath_no_parents (fuel : nat) (r : ParsedResource) :
  Parents r = [] ->
  generateHTTPPath fuel r = Returns (strings.ToLower (Plural r) ++ "/*").
Proof.
  intros Hp. unfold generateHTTPPath. now rewrite Hp.
Qed.

Lemma generateHTTPPath_one_parent (fuel : nat) (r p : ParsedResource)
      (rest : list (option ParsedResource)) :
  Parents r = Some p :: rest ->
  Parents p = [] ->
  generateHTTPPath (S fuel) r
  = Returns (strings.ToLower (Plural p) ++ "/*/"
               ++ strings.ToLower (Plural r) ++ "/*").
Proof.
  intros Hr Hp. unfold generateHTTPPath.
  rewrite Hr, parentLoop_once by assumption. simpl.
  now rewrite !string_app_assoc.
Qed.

Lemma generateHTTPPath_grandparent (r p : ParsedResource)
      (rest : list (option ParsedResource)) :
  Parents r = Some p :: rest ->
  Parents p <> [] ->
  forall fuel, generateHTTPPath fuel r = OutOfFuel.
Proof.
  intros Hr Hp fuel. unfold generateHTTPPath.
  now rewrite Hr, parentLoop_stuck by assumption.
Qed.


Lemma generateParentHTTPPath_one_parent (fuel : nat) (r p : ParsedResource)
      (rest : list (option ParsedResource)) :
  Parents r = Some p :: rest ->
  Parents p = [] ->
  generateParentHTTPPath fuel r
  = Returns ("/{parent=" ++ strings.ToLower (Plural p) ++ "/*"
               ++ strings.ToLower (Plural r) ++ "}").
Proof.
  intros Hr Hp. unfold generateParentHTTPPath.
  rewrite Hr, generateHTTPPath_no_parents by assumption. simpl.
  now rewrite !string_app_assoc.
Qed.

(** C1.  On the chain Store > Shelf > Book, of depth two, the
    specification's collection path is stores/*/shelves/*/books/*, but
    [generateHTTPPath] does not return it: whatever the fuel, the loop is
    still running, because it never moves from the shelf to the store. *)
Theorem generateHTTPPath_depth_two_never_returns :
  depth bookInStore = 2%nat /\
  collectionPath_spec bookInStore = "stores/*/shelves/*/books/*" /\
  forall fuel, generateHTTPPath fuel bookInStore = OutOfFuel.
Proof.
  split; [reflexivity|]. split; [reflexivity|].
  apply (@generateHTTPPath_grandparent bookInStore shelfInStore []).
  - reflexivity.
  - discriminate.
Qed.

(** C2.  For Book under a parentless Shelf the binding path that [AddList]
    registers is /{parent=shelves/*books}: the parent's collection path is
    followed by the plural with no separator, so it is not the
    /{parent=shelves/*/books} of the specification. *)
Theorem AddList_book_under_shelf_lacks_separator :
  forall (K : constants.Numbers) (fuel : nat) (resourceMb : MessageBuilder)
         (st : Builders),
    generateParentHTTPPath fuel book = Returns "/{parent=shelves/*books}" /\
    generateParentHTTPPath fuel book <> Returns "/{parent=shelves/*/books}" /\
    map httpPath (sb (snd (AddList K fuel book resourceMb st)))
    = (map httpPath (sb st)
       ++ [Some (annotations.HttpRule_Get "/{parent=shelves/*books}")])%list.
Proof.
  intros K fuel resourceMb st.
  assert (Hpath : generateParentHTTPPath fuel book
                  = Returns "/{parent=shelves/*books}")
    by (apply (@generateParentHTTPPath_one_parent fuel book shelf []);
        reflexivity).
  split; [exact Hpath|]. split.
  - rewrite Hpath. discriminate.
  - unfold AddList, bind, call, AddMessage, AddMethod, ret.
    rewrite Hpath. simpl. now rewrite map_app.
Qed.




(* ------------------------------------------------------------------ *)
(** ** The generators, one at a time                                   *)
(* ------------------------------------------------------------------ *)

(** Every generator registers its messages first: whatever happens later,
    the file builder has grown by exactly the messages of the table, with
    the field numbers of the reserved layout. *)
Lemma generator_messages (K : constants.Numbers) (registry : desc.Registry)
      (k : MethodKind) (fuel : nat) (r : ParsedResource)
      (resourceMb : MessageBuilder) (st : Builders) :
  exists msgs,
    fb (snd (generatorOf K registry k fuel r resourceMb st))
    = (fb st ++ msgs)%list /\
    map MsgName msgs = prescribedMessages k (Kind r) /\
    map fieldNumbers msgs = reservedLayout K k.
Proof.
  destruct k; unfold_generators; split_generator; cbn [snd fb];
    rewrite <- ?app_assoc; eexists; (split; [reflexivity|]);
    split; reflexivity.
Qed.

(** A generator that returns nil has registered exactly one method, the
    one of the table. *)
Lemma generator_method (K : constants.Numbers) (registry : desc.Registry)
      (k : MethodKind) (fuel : nat) (r : ParsedResource)
      (resourceMb : MessageBuilder) (st st' : Builders) :
  MsgName resourceMb = Kind r ->
  generatorOf K registry k fuel r resourceMb st = (Returns None, st') ->
  exists m,
    sb st' = (sb st ++ [m])%list /\
    rpcSignature m = Some (prescribedRpc k (Kind r)).
Proof.
  intros Hname.
  destruct k; unfold_generators; split_generator; intros H;
    inversion H; subst; clear H; cbn [sb];
    eexists; (split; [reflexivity|]);
    unfold rpcSignature, prescribedRpc; cbn; now rewrite ?Hname.
Qed.

(** A generator that does not return nil has registered no method. *)
Lemma generator_no_method (K : constants.Numbers) (registry : desc.Registry)
      (k : MethodKind) (fuel : nat) (r : ParsedResource)
      (resourceMb : MessageBuilder) (st : Builders) :
  fst (generatorOf K registry k fuel r resourceMb st) <> Returns None ->
  sb (snd (generatorOf K registry k fuel r resourceMb st)) = sb st.
Proof.
  destruct k; unfold_generators; split_generator; cbn [fst snd sb];
    intros H; try reflexivity; now contradiction H.
Qed.

(** The only error a generator returns is the error of the empty-message
    load in [AddDelete]. *)
Lemma generator_error (K : constants.Numbers) (registry : desc.Registry)
      (k : MethodKind) (fuel : nat) (r : ParsedResource)
      (resourceMb : MessageBuilder) (st : Builders) (e : error) :
  fst (generatorOf K registry k fuel r resourceMb st) = Returns (Some e) ->
  k = Delete /\
  snd (desc.LoadMessageDescriptor registry emptyName) = Some e.
Proof.
  unfold emptyName.
  destruct k; unfold_generators; split_generator; cbn [fst snd];
    intros H; try discriminate H.
  inversion H. now split.
Qed.


(* ------------------------------------------------------------------ *)
(** ** AddResource as a run over the method kinds                      *)
(* ------------------------------------------------------------------ *)

Lemma AddResource_unfold (K : constants.Numbers) (registry : desc.Registry)
      (fuel : nat) (r : ParsedResource) (st : Builders) :
  AddResource K registry fuel r st
  = match GeneratedResourceMessage r with
    | Err err =>
        (Returns (Some (Errorf_w ("unable to generate resource " ++ Kind r
                                    ++ ": ") err)), st)
    | Ok mb =>
        match Methods r with
        | None =>
            (Returns None,
             {| fb := fb st ++ [withResourceComment r mb]; sb := sb st |})
        | Some m =>
            runMethods K registry fuel r (withResourceComment r mb) m
                       allMethodKinds
                       {| fb := fb st ++ [withResourceComment r mb];
                          sb := sb st |}
        end
    end.
Proof.
  unfold AddResource.
  destruct (GeneratedResourceMessage r) as [mb|err]; [|reflexivity].
  unfold bind at 1, AddMessage.
  destruct (Methods r); reflexivity.
Qed.

(** One block of [AddResource], read backwards from a nil result. *)
Lemma ifEnabled_nil (enabled : bool) (gen rest : M (option error))
      (st st' : Builders) :
  ifEnabled enabled gen rest st = (Returns None, st') ->
  if enabled
  then exists st1, gen st = (Returns None, st1) /\
                   rest st1 = (Returns None, st')
  else rest st = (Returns None, st').
Proof.
  unfold ifEnabled, bind, ret.
  destruct enabled; [|easy].
  destruct (gen st) as [[[e|]| |] st1]; intros H; try discriminate H.
  now exists st1.
Qed.

(** One block of [AddResource], read backwards from an error: the error
    comes from this block's generator or from the rest. *)
Lemma ifEnabled_error (enabled : bool) (gen rest : M (option error))
      (st st' : Builders) (e : error) :
  ifEnabled enabled gen rest st = (Returns (Some e), st') ->
  (enabled = true /\ gen st = (Returns (Some e), st')) \/
  (exists st1,
      (if enabled then gen st = (Returns None, st1) else st1 = st) /\
      rest st1 = (Returns (Some e), st')).
Proof.
  unfold ifEnabled, bind, ret.
  destruct enabled.
  - destruct (gen st) as [[[e'|]| |] st1]; intros H; try discriminate H.
    + left. now inversion H.
    + right. now exists st1.
  - intros H. right. now exists st.
Qed.




(** What a run over some method kinds has registered when it returns
    nil: the messages and the methods of the enabled kinds, in order. *)
Lemma runMethods_nil (K : constants.Numbers) (registry : desc.Registry)
      (fuel : nat) (r : ParsedResource) (resourceMb : MessageBuilder)
      (m : schema.Methods) (ks : list MethodKind) :
  MsgName resourceMb = Kind r ->
  Methods r = Some m ->
  forall st st',
    runMethods K registry fuel r resourceMb m ks st = (Returns None, st') ->
    map MsgName (fb st')
    = (map MsgName (fb st) ++ enabledMessages r ks)%list /\
    map rpcSignature (sb st')
    = (map rpcSignature (sb st) ++ enabledRpcs r ks)%list.
Proof.
  intros Hname Hm.
  assert (Hen : forall k, enabledIn r k = isEnabled m k)
    by (intros k; unfold enabledIn; now rewrite Hm).
  induction ks as [|k ks IH]; intros st st' H; simpl in H.
  - inversion H; subst. unfold enabledMessages, enabledRpcs. simpl.
    now rewrite !app_nil_r.
  - apply ifEnabled_nil in H.
    unfold enabledMessages, enabledRpcs in *. simpl. rewrite Hen.
    destruct (isEnabled m k).
    + destruct H as (st1 & Hgen & Hrest).
      destruct (IH _ _ Hrest) as [IHm IHr]. rewrite IHm, IHr.
      destruct (generator_messages K registry k fuel r resourceMb st)
        as (msgs & Hfb & Hnames & _).
      destruct (@generator_method K registry k fuel r resourceMb st st1
                                  Hname Hgen) as (meth & Hsb & Hsig).
      rewrite Hgen in Hfb. simpl in Hfb.
      rewrite Hfb, Hsb, !map_app, Hnames. simpl. rewrite Hsig.
      now rewrite <- !app_assoc.
    + now apply IH.
Qed.

(* ------------------------------------------------------------------ *)
(** ** The resource message                                            *)
(* ------------------------------------------------------------------ *)















(* ------------------------------------------------------------------ *)
(** ** Properties of AddResource                                       *)
(* ------------------------------------------------------------------ *)

Lemma addFields_name (ps : list ParsedProperty) :
  forall mb mb', addFields ps mb = Ok mb' -> MsgName mb' = MsgName mb.
Proof.
  induction ps as [|p ps IH]; intros mb mb' H; simpl in H.
  - now inversion H.
  - destruct (fieldTypeOf (parser.Type_ p)) as [typ|e]; [|discriminate H].
    now rewrite (IH _ _ H).
Qed.

Lemma GeneratedResourceMessage_name (r : ParsedResource)
      (mb : MessageBuilder) :
  GeneratedResourceMessage r = Ok mb -> MsgName mb = Kind r.
Proof.
  unfold GeneratedResourceMessage.
  destruct (addFields (GetFieldsSortedByNumber r) (NewMessage (Kind r)))
    as [mb0|e] eqn:Hrun; intros H; inversion H; subst.
  simpl. now rewrite (addFields_name _ _ Hrun).
Qed.



(** C5, as stated, fails when the compilation of the resource fails.  With
    a field of an unmapped type nothing at all is registered although
    Create is enabled; and when the empty-message load of Delete fails,
    Delete has its request message but no method, and List, enabled as
    well, has neither messages nor a method. *)
Lemma enabled_methods_missing_after_failure :
  enabledIn coverBook Create = true /\
  snd (AddResource sampleNumbers workingRegistry 1 coverBook fresh) = fresh /\
  enabledIn crudBook Delete = true /\
  enabledIn crudBook List = true /\
  map MsgName
      (fb (snd (AddResource sampleNumbers failingRegistry 1 crudBook fresh)))
  = ["Book"; "CreateBookRequest"; "UpdateBookRequest"; "DeleteBookRequest"] /\
  map MethodName
      (sb (snd (AddResource sampleNumbers failingRegistry 1 crudBook fresh)))
  = ["CreateBook"; "UpdateBook"] /\
  ~ In "DeleteBook"
       (map MethodName
            (sb (snd (AddResource sampleNumbers failingRegistry 1 crudBook
                                  fresh)))) /\
  ~ In "ListBookRequest"
       (map MsgName
            (fb (snd (AddResource sampleNumbers failingRegistry 1 crudBook
                                  fresh)))).
Proof.
  repeat split; try (vm_compute; reflexivity);
    vm_compute; intros H;
    repeat (destruct H as [H|H]; [discriminate H|]); exact H.
Qed.

(** C5, amended.  Whenever [AddResource] returns nil, the file builder has
    grown by the resource message followed by the messages of the enabled
    method kinds, and the service builder by one method per enabled kind,
    each as the table prescribes; a kind that is not enabled contributes
    nothing to either. *)
Theorem AddResource_registers_enabled_methods :
  forall (K : constants.Numbers) (registry : desc.Registry) (fuel : nat)
         (r : ParsedResource) (st st' : Builders),
    AddResource K registry fuel r st = (Returns None, st') ->
    map MsgName (fb st')
    = (map MsgName (fb st) ++ Kind r :: enabledMessages r allMethodKinds)%list
    /\
    map rpcSignature (sb st')
    = (map rpcSignature (sb st) ++ enabledRpcs r allMethodKinds)%list.
Proof.
  intros K registry fuel r st st'. rewrite AddResource_unfold.
  destruct (GeneratedResourceMessage r) as [mb|err] eqn:Hgen;
    [|discriminate].
  pose proof (GeneratedResourceMessage_name _ Hgen) as Hname.
  destruct (Methods r) as [m|] eqn:Hm; intros H.
  - assert (Hname' : MsgName (withResourceComment r mb) = Kind r)
      by exact Hname.
    destruct (@runMethods_nil K registry fuel r _ m allMethodKinds
                              Hname' Hm _ _ H) as [Hmsgs Hrpcs].
    rewrite Hmsgs, Hrpcs. cbn [fb sb]. rewrite map_app, <- app_assoc.
    simpl map at 2. rewrite Hname. now split.
  - inversion H; subst. cbn [fb sb]. rewrite map_app. simpl map at 2.
    rewrite Hname. unfold enabledMessages, enabledRpcs, enabledIn.
    rewrite Hm. simpl. now rewrite app_nil_r.
Qed.

Lemma AddResource_registers_enabled_methods_witness :
  AddResource sampleNumbers workingRegistry 1 crudBook fresh
  = (Returns None,
     snd (AddResource sampleNumbers workingRegistry 1 crudBook fresh)) /\
  map MsgName
      (fb (snd (AddResource sampleNumbers workingRegistry 1 crudBook fresh)))
  = (map MsgName (fb fresh)
     ++ Kind crudBook :: enabledMessages crudBook allMethodKinds)%list /\
  map rpcSignature
      (sb (snd (AddResource sampleNumbers workingRegistry 1 crudBook fresh)))
  = (map rpcSignature (sb fresh) ++ enabledRpcs crudBook allMethodKinds)%list.
Proof.
  assert (H : AddResource sampleNumbers workingRegistry 1 crudBook fresh
              = (Returns None,
                 snd (AddResource sampleNumbers workingRegistry 1 crudBook
                                  fresh)))
    by (vm_compute; reflexivity).
  split; [exact H|].
  exact (@AddResource_registers_enabled_methods
           sampleNumbers workingRegistry 1 crudBook fresh _ H).
Defined.

(* ------------------------------------------------------------------ *)
(** ** Errors of the per-method generators                             *)
(* ------------------------------------------------------------------ *)

(** The file builder only grows during a run over method kinds, however
    the run ends. *)
Lemma runMethods_grows (K : constants.Numbers) (registry : desc.Registry)
      (fuel : nat) (r : ParsedResource) (resourceMb : MessageBuilder)
      (m : schema.Methods) (ks : list MethodKind) :
  forall st,
  exists msgs,
    fb (snd (runMethods K registry fuel r resourceMb m ks st))
    = (fb st ++ msgs)%list.
Proof.
  induction ks as [|k ks IH]; intros st; simpl.
  - exists []. now rewrite app_nil_r.
  - unfold ifEnabled. destruct (isEnabled m k); [|apply IH].
    destruct (generator_messages K registry k fuel r resourceMb st)
      as (msgs & Hfb & _).
    unfold bind, ret.
    destruct (generatorOf K registry k fuel r resourceMb st)
      as [[[e|]| |] st1]; simpl in Hfb |- *;
      try (now exists msgs).
    destruct (IH st1) as (msgs' & Hfb').
    exists (msgs ++ msgs')%list. now rewrite Hfb', Hfb, app_assoc.
Qed.

(** A run over method kinds that returns an error has gone through the
    kinds before some enabled kind without an error, and the generator of
    that kind returned the error. *)
Lemma runMethods_error (K : constants.Numbers) (registry : desc.Registry)
      (fuel : nat) (r : ParsedResource) (resourceMb : MessageBuilder)
      (m : schema.Methods) (ks : list MethodKind) (e : error) :
  forall st st',
    runMethods K registry fuel r resourceMb m ks st
    = (Returns (Some e), st') ->
    exists before k after st_k,
      ks = (before ++ k :: after)%list /\
      isEnabled m k = true /\
      runMethods K registry fuel r resourceMb m before st
      = (Returns None, st_k) /\
      generatorOf K registry k fuel r resourceMb st_k
      = (Returns (Some e), st').
Proof.
  induction ks as [|k ks IH]; intros st st' H; simpl in H.
  - discriminate H.
  - apply ifEnabled_error in H.
    destruct H as [[Hen Hgen] | (st1 & Hpass & Hrest)].
    + exists [], k, ks, st. now repeat split.
    + destruct (IH _ _ Hrest) as (before & k' & after & st_k & -> & Hen'
                                  & Hrun & Hgen).
      exists (k :: before), k', after, st_k.
      repeat split; try assumption.
      simpl. unfold ifEnabled, bind.
      destruct (isEnabled m k); [now rewrite Hpass | now subst st1].
Qed.

Lemma allMethodKinds_split_at_Delete (before after : list MethodKind) :
  allMethodKinds = (before ++ Delete :: after)%list ->
  before = [Create; Read; Update].
Proof.
  unfold allMethodKinds.
  destruct before as [|k1 [|k2 [|k3 [|k4 [|k5 [|k6 [|k7 [|k8 rest]]]]]]]];
    simpl; intros H; congruence.
Qed.

(** C10.  When the resource message was generated and [AddResource] all
    the same returns an error, the error is the one of the empty-message
    load in an enabled Delete, and the builders keep what was registered
    up to then: the resource message, registered first, the messages and
    methods of the enabled kinds among Create, Read and Update, and the
    request message of Delete, but no method for Delete. *)
Theorem AddResource_error_keeps_partial_output :
  forall (K : constants.Numbers) (registry : desc.Registry) (fuel : nat)
         (r : ParsedResource) (mb : MessageBuilder) (e : error)
         (st st' : Builders),
    GeneratedResourceMessage r = Ok mb ->
    AddResource K registry fuel r st = (Returns (Some e), st') ->
    snd (desc.LoadMessageDescriptor registry emptyName) = Some e /\
    enabledIn r Delete = true /\
    nth_error (fb st') (length (fb st)) = Some (withResourceComment r mb) /\
    map MsgName (fb st')
    = (map MsgName (fb st)
       ++ Kind r :: enabledMessages r [Create; Read; Update]
       ++ [("Delete" ++ Kind r ++ "Request")%string])%list /\
    map rpcSignature (sb st')
    = (map rpcSignature (sb st)
       ++ enabledRpcs r [Create; Read; Update])%list.
Proof.
  intros K registry fuel r mb e st st' Hgen.
  pose proof (GeneratedResourceMessage_name _ Hgen) as Hname.
  rewrite AddResource_unfold, Hgen.
  destruct (Methods r) as [m|] eqn:Hm; [|discriminate].
  intros H.
  set (rmb := withResourceComment r mb) in *.
  set (st0 := {| fb := fb st ++ [rmb]; sb := sb st |}) in *.
  destruct (runMethods_grows K registry fuel r rmb m allMethodKinds st0)
    as (grown & Hgrown).
  rewrite H in Hgrown. cbn [snd] in Hgrown.
  apply runMethods_error in H.
  destruct H as (before & k & after & st_k & Hsplit & Hen & Hrun & Hfail).
  assert (Hk : fst (generatorOf K registry k fuel r rmb st_k)
               = Returns (Some e)) by now rewrite Hfail.
  apply generator_error in Hk. destruct Hk as [-> Hload].
  apply allMethodKinds_split_at_Delete in Hsplit. subst before.
  assert (Hname' : MsgName rmb = Kind r) by exact Hname.
  destruct (@runMethods_nil K registry fuel r rmb m [Create; Read; Update]
                            Hname' Hm _ _ Hrun) as [Hmsgs Hrpcs].
  destruct (generator_messages K registry Delete fuel r rmb st_k)
    as (msgs & Hfb & Hnames & _).
  rewrite Hfail in Hfb. cbn [snd] in Hfb.
  assert (Hsb : sb st' = sb st_k).
  { pose proof (@generator_no_method K registry Delete fuel r rmb st_k)
      as Hno.
    rewrite Hfail in Hno. apply Hno. discriminate. }
  split; [exact Hload|].
  split; [unfold enabledIn; now rewrite Hm|].
  split; [|split].
  - rewrite Hgrown. unfold st0. cbn [fb]. rewrite <- app_assoc.
    rewrite nth_error_app2 by lia. now rewrite Nat.sub_diag.
  - rewrite Hfb, map_app, Hnames, Hmsgs. unfold st0. cbn [fb].
    rewrite map_app, <- !app_assoc. simpl map. now rewrite Hname.
  - now rewrite Hsb, Hrpcs.
Qed.

Lemma AddResource_error_keeps_partial_output_witness :
  let mb := SetOptions
              (AddField
                 (AddField (NewMessage "Book")
                    (SetFieldComments
                       (SetNumber (NewField "price" FieldTypeFloat) 1)
                       "Field for price."))
                 (SetFieldComments
                    (SetNumber (NewField "isbn" FieldTypeString) 3)
                    "Field for isbn."))
              descriptorpb.emptyMessageOptions in
  let st' := snd (AddResource sampleNumbers failingRegistry 1 crudBook
                              fresh) in
  GeneratedResourceMessage crudBook = Ok mb /\
  AddResource sampleNumbers failingRegistry 1 crudBook fresh
  = (Returns (Some notLoaded), st') /\
  snd (desc.LoadMessageDescriptor failingRegistry emptyName)
  = Some notLoaded /\
  enabledIn crudBook Delete = true /\
  nth_error (fb st') (length (fb fresh))
  = Some (withResourceComment crudBook mb) /\
  map MsgName (fb st')
  = (map MsgName (fb fresh)
     ++ Kind crudBook :: enabledMessages crudBook [Create; Read; Update]
     ++ [("Delete" ++ Kind crudBook ++ "Request")%string])%list /\
  map rpcSignature (sb st')
  = (map rpcSignature (sb fresh)
     ++ enabledRpcs crudBook [Create; Read; Update])%list.
Proof.
  intros mb st'.
  assert (Hgen : GeneratedResourceMessage crudBook = Ok mb) by reflexivity.
  assert (Hrun : AddResource sampleNumbers failingRegistry 1 crudBook fresh
                 = (Returns (Some notLoaded), st'))
    by (vm_compute; reflexivity).
  split; [exact Hgen|]. split; [exact Hrun|].
  exact (@AddResource_error_keeps_partial_output
           sampleNumbers failingRegistry 1 crudBook mb notLoaded fresh st'
           Hgen Hrun).
Defined.




(* ------------------------------------------------------------------ *)
(** ** Reserved field numbers                                          *)
(* ------------------------------------------------------------------ *)

Lemma skipn_length_app {A : Type} (l m : list A) :
  skipn (length l) (l ++ m) = m.
Proof.
  induction l as [|x l IH]; simpl; [reflexivity | exact IH].
Qed.



(* ------------------------------------------------------------------ *)
(** ** Further properties of path generation                           *)
(* ------------------------------------------------------------------ *)

(** X1.  [generateHTTPPath] never looks beyond the first parent.  With any
    fuel at all it returns the plural alone when the resource has no
    parents or a nil first parent, the first parent's plural and its own
    when that parent has no parents, and it never returns when that parent
    has any parent entry. *)
Theorem generateHTTPPath_closed_form :
  forall (fuel : nat) (r : ParsedResource),
    generateHTTPPath (S fuel) r
    = match Parents r with
      | Some p :: _ =>
          match Parents p with
          | [] => Returns (strings.ToLower (Plural p) ++ "/*/"
                             ++ strings.ToLower (Plural r) ++ "/*")
          | _ :: _ => OutOfFuel
          end
      | _ => Returns (strings.ToLower (Plural r) ++ "/*")
      end.
Proof.
  intros fuel r.
  destruct (Parents r) as [|[p|] rest] eqn:Hr.
  - now apply generateHTTPPath_no_parents.
  - destruct (Parents p) as [|g ps] eqn:Hp.
    + now apply (@generateHTTPPath_one_parent fuel r p rest).
    + apply (@generateHTTPPath_grandparent r p rest Hr). now rewrite Hp.
  - unfold generateHTTPPath. now rewrite Hr.
Qed.









(* ------------------------------------------------------------------ *)
(** ** When AddResource returns, and when it does not                  *)
(* ------------------------------------------------------------------ *)








(* ------------------------------------------------------------------ *)
(** ** AddResource and the earlier contents of the builders            *)
(* ------------------------------------------------------------------ *)

Lemma extend_fresh (d : Builders) : extend fresh d = d.
Proof.
  now destruct d.
Qed.


Lemma generator_frame (K : constants.Numbers) (registry : desc.Registry)
      (k : MethodKind) (fuel : nat) (r : ParsedResource)
      (resourceMb : MessageBuilder) (st : Builders) :
  generatorOf K registry k fuel r resourceMb st
  = (fst (generatorOf K registry k fuel r resourceMb fresh),
     extend st (snd (generatorOf K registry k fuel r resourceMb fresh))).
Proof.
  destruct k; unfold_generators; split_generator; unfold extend;
    cbn [fst snd fb sb fresh app];
    now rewrite <- ?app_assoc, ?app_nil_r.
Qed.



(* ------------------------------------------------------------------ *)
(** ** References resolve                                              *)
(* ------------------------------------------------------------------ *)

Lemma wellReferenced_grow (st st' : Builders) (msgs : list MessageBuilder)
      (ms : list MethodBuilder) :
  fb st' = (fb st ++ msgs)%list ->
  sb st' = (sb st ++ ms)%list ->
  wellReferenced st ->
  (forall x, In x (flat_map refsOfMessage msgs ++ flat_map refsOfMethod ms) ->
             In x (map MsgName (fb st'))) ->
  wellReferenced st'.
Proof.
  unfold wellReferenced, references. intros Hfb Hsb Hst Hnew x Hx.
  rewrite Hfb, Hsb, !flat_map_app in Hx.
  apply in_app_or in Hx. destruct Hx as [Hx|Hx]; apply in_app_or in Hx;
    destruct Hx as [Hx|Hx].
  - rewrite Hfb, map_app. apply in_or_app. left. apply Hst.
    apply in_or_app. now left.
  - apply Hnew. apply in_or_app. now left.
  - rewrite Hfb, map_app. apply in_or_app. left. apply Hst.
    apply in_or_app. now right.
  - apply Hnew. apply in_or_app. now right.
Qed.

(** The fields of the resource message have scalar types: they refer to
    no message. *)
Lemma addFields_refs (ps : list ParsedProperty) :
  forall mb mb',
    addFields ps mb = Ok mb' -> refsOfMessage mb' = refsOfMessage mb.
Proof.
  induction ps as [|p ps IH]; intros mb mb' H; simpl in H.
  - now inversion H.
  - destruct (fieldTypeOf (parser.Type_ p)) as [typ|e] eqn:Ht;
      [|discriminate H].
    rewrite (IH _ _ H). unfold refsOfMessage. cbn [MsgFields AddField].
    rewrite flat_map_app. cbn.
    destruct (parser.Type_ p); inversion Ht; subst; cbn;
      now rewrite app_nil_r.
Qed.

Lemma GeneratedResourceMessage_refs (r : ParsedResource)
      (mb : MessageBuilder) :
  GeneratedResourceMessage r = Ok mb ->
  refsOfMessage (withResourceComment r mb) = [].
Proof.
  unfold GeneratedResourceMessage.
  destruct (addFields (GetFieldsSortedByNumber r) (NewMessage (Kind r)))
    as [mb0|e] eqn:Hrun; intros H; inversion H; subst.
  apply addFields_refs in Hrun. exact Hrun.
Qed.

(** A generator only refers to the resource message and to the messages
    it has registered itself. *)
Lemma generator_refs (K : constants.Numbers) (registry : desc.Registry)
      (k : MethodKind) (fuel : nat) (r : ParsedResource)
      (resourceMb : MessageBuilder) (st : Builders) :
  In (MsgName resourceMb) (map MsgName (fb st)) ->
  wellReferenced st ->
  wellReferenced (snd (generatorOf K registry k fuel r resourceMb st)).
Proof.
  intros Hres Hst. rewrite generator_frame. cbn [snd].
  eapply wellReferenced_grow; [reflexivity | reflexivity | exact Hst |].
  cbn [fb extend].
  destruct k; unfold_generators; split_generator; cbn [snd fb sb fresh app];
    intros x Hx; resolve_reference Hres.
Qed.

Lemma runMethods_refs (K : constants.Numbers) (registry : desc.Registry)
      (fuel : nat) (r : ParsedResource) (resourceMb : MessageBuilder)
      (m : schema.Methods) (ks : list MethodKind) :
  forall st,
    In (MsgName resourceMb) (map MsgName (fb st)) ->
    wellReferenced st ->
    wellReferenced (snd (runMethods K registry fuel r resourceMb m ks st)).
Proof.
  induction ks as [|k ks IH]; intros st Hres Hst; simpl; [exact Hst|].
  unfold ifEnabled. destruct (isEnabled m k); [|now apply IH].
  unfold bind, ret.
  pose proof (@generator_refs K registry k fuel r resourceMb st Hres Hst)
    as Hgen.
  destruct (generator_messages K registry k fuel r resourceMb st)
    as (msgs & Hfb & _).
  destruct (generatorOf K registry k fuel r resourceMb st)
    as [[[e|]| |] st1]; cbn [snd] in *; try exact Hgen.
  apply IH; [|exact Hgen].
  rewrite Hfb, map_app. apply in_or_app. now left.
Qed.

(** X7.  [AddResource] keeps the builders closed under references: if
    every message named by a field type or by the request or response of
    a method was registered in the file builder before the call, the same
    holds after it, however the call ends. *)
Theorem AddResource_keeps_references_resolved :
  forall (K : constants.Numbers) (registry : desc.Registry) (fuel : nat)
         (r : ParsedResource) (st : Builders),
    wellReferenced st ->
    wellReferenced (snd (AddResource K registry fuel r st)).
Proof.
  intros K registry fuel r st Hst. rewrite AddResource_unfold.
  destruct (GeneratedResourceMessage r) as [mb|err] eqn:Hgen;
    [|exact Hst].
  set (rmb := withResourceComment r mb).
  assert (Hst0 : wellReferenced
                   {| fb := fb st ++ [rmb]; sb := sb st |}).
  { apply (@wellReferenced_grow st _ [rmb] []);
      [reflexivity | cbn; now rewrite app_nil_r | exact Hst |].
    cbn [flat_map]. unfold rmb.
    rewrite (GeneratedResourceMessage_refs _ Hgen). intros x []. }
  destruct (Methods r) as [m|]; [|exact Hst0].
  apply runMethods_refs; [|exact Hst0].
  cbn [fb]. rewrite map_app. apply in_or_app. right. now left.
Qed.

Lemma AddResource_keeps_references_resolved_witness :
  wellReferenced fresh /\
  wellReferenced
    (snd (AddResource sampleNumbers workingRegistry 1 crudBook fresh)).
Proof.
  assert (H : wellReferenced fresh) by (intros x []).
  split; [exact H|].
  exact (@AddResource_keeps_references_resolved
           sampleNumbers workingRegistry 1 crudBook fresh H).
Defined.

(* ------------------------------------------------------------------ *)
(** ** Message names do not clash                                      *)
(* ------------------------------------------------------------------ *)

Lemma string_length_app (a b : string) :
  String.length (a ++ b) = (String.length a + String.length b)%nat.
Proof.
  induction a as [|c a IH]; simpl; [reflexivity | now rewrite IH].
Qed.

Lemma NoDup_app_disjoint {A : Type} (l l' : list A) (x : A) :
  NoDup (l ++ l') -> In x l -> ~ In x l'.
Proof.
  induction l as [|a l IH]; simpl; intros Hnd Hin; [contradiction|].
  inversion Hnd as [|? ? Hnotin Hnd']; subst.
  destruct Hin as [->|Hin]; [|now apply IH].
  intros Hx. apply Hnotin. apply in_or_app. now right.
Qed.

Lemma flat_map_if_incl {A B : Type} (f : A -> bool) (P : A -> list B)
      (ks : list A) :
  incl (flat_map (fun k => if f k then P k else []) ks) (flat_map P ks).
Proof.
  induction ks as [|k ks IH]; simpl; intros x Hx; [exact Hx|].
  apply in_or_app. apply in_app_or in Hx.
  destruct Hx as [Hx|Hx]; [|right; now apply IH].
  destruct (f k); [now left | contradiction].
Qed.

Lemma NoDup_flat_map_if {A B : Type} (f : A -> bool) (P : A -> list B)
      (ks : list A) :
  NoDup (flat_map P ks) ->
  NoDup (flat_map (fun k => if f k then P k else []) ks).
Proof.
  induction ks as [|k ks IH]; simpl; intros Hnd; [constructor|].
  pose proof (IH (NoDup_app_remove_l _ _ Hnd)) as Hrest.
  destruct (f k); [|exact Hrest].
  apply NoDup_app; [exact (NoDup_app_remove_r _ _ Hnd) | exact Hrest |].
  intros x Hx Hin.
  apply (NoDup_app_disjoint _ _ x Hnd Hx).
  now apply (flat_map_if_incl f P ks).
Qed.

(** The ten names a resource can give to messages differ pairwise: those
    of equal length start with different letters. *)
Lemma message_names_distinct (kind : string) :
  NoDup (kind :: flat_map (fun k => prescribedMessages k kind)
                          allMethodKinds).
Proof.
  apply (NoDup_map_inv nameKey).
  unfold nameKey. cbn -[String.length Nat.add].
  cbn [String.length]. rewrite !string_length_app. cbn [String.length].
  repeat (constructor;
          [intros H; cbn [In] in H;
           repeat (destruct H as [H|H];
                   [first [congruence | injection H; intros; lia]|]);
           exact H|]).
  constructor.
Qed.

Lemma AddResource_nil_message_names (K : constants.Numbers)
      (registry : desc.Registry) (fuel : nat) (r : ParsedResource)
      (st st' : Builders) :
  AddResource K registry fuel r st = (Returns None, st') ->
  map MsgName (messagesAdded st st')
  = Kind r :: enabledMessages r allMethodKinds.
Proof.
  rewrite AddResource_unfold.
  destruct (GeneratedResourceMessage r) as [mb|err] eqn:Hgen;
    [|discriminate].
  pose proof (GeneratedResourceMessage_name _ Hgen) as Hname.
  assert (Hname' : MsgName (withResourceComment r mb) = Kind r)
    by exact Hname.
  unfold messagesAdded. rewrite <- skipn_map, <- (length_map MsgName).
  destruct (Methods r) as [m|] eqn:Hm; intros H.
  - destruct (@runMethods_nil K registry fuel r _ m allMethodKinds
                              Hname' Hm _ _ H) as [Hmsgs _].
    rewrite Hmsgs. cbn [fb]. rewrite map_app, <- app_assoc.
    rewrite skipn_length_app. cbn [map app]. now rewrite Hname'.
  - inversion H; subst. cbn [fb]. rewrite map_app, skipn_length_app.
    cbn [map]. rewrite Hname'.
    unfold enabledMessages, enabledIn. now rewrite Hm.
Qed.

(** X8.  The messages that a successful [AddResource] registers for one
    resource have pairwise different names, whatever the kind of the
    resource and whichever methods are enabled. *)
Theorem AddResource_message_names_are_distinct :
  forall (K : constants.Numbers) (registry : desc.Registry) (fuel : nat)
         (r : ParsedResource) (st st' : Builders),
    AddResource K registry fuel r st = (Returns None, st') ->
    NoDup (map MsgName (messagesAdded st st')).
Proof.
  intros K registry fuel r st st' H.
  rewrite (AddResource_nil_message_names _ _ _ _ _ H).
  pose proof (message_names_distinct (Kind r)) as Hall.
  inversion Hall as [|? ? Hnotin Hnd]; subst.
  constructor.
  - intros Hin. apply Hnotin.
    now apply (flat_map_if_incl (enabledIn r)
                 (fun k => prescribedMessages k (Kind r)) allMethodKinds).
  - now apply (NoDup_flat_map_if (enabledIn r)
                 (fun k => prescribedMessages k (Kind r)) allMethodKinds).
Qed.

Lemma AddResource_message_names_are_distinct_witness :
  AddResource sampleNumbers workingRegistry 1 crudBook fresh
  = (Returns None,
     snd (AddResource sampleNumbers workingRegistry 1 crudBook fresh)) /\
  NoDup (map MsgName
             (messagesAdded fresh
                (snd (AddResource sampleNumbers workingRegistry 1 crudBook
                                  fresh)))).
Proof.
  assert (H : AddResource sampleNumbers workingRegistry 1 crudBook fresh
              = (Returns None,
                 snd (AddResource sampleNumbers workingRegistry 1 crudBook
                                  fresh)))
    by (vm_compute; reflexivity).
  split; [exact H|].
  exact (@AddResource_message_names_are_distinct
           sampleNumbers workingRegistry 1 crudBook fresh _ H).
Defined.

(* ------------------------------------------------------------------ *)
(** ** The example service                                             *)
(* ------------------------------------------------------------------ *)

Section BookstoreProperties.

Import service.

Variable Payload : Type.

Lemma mapLookup_delete_same (k : string) (m : service.Map Payload) :
  mapLookup k (mapDelete k m) = None.
Proof.
  induction m as [|[k' v] m IH]; simpl; [reflexivity|].
  destruct (k =? k')%string eqn:E; [exact IH|].
  simpl. now rewrite E.
Qed.

Lemma mapLookup_delete_other (k k' : string) (m : service.Map Payload) :
  k <> k' -> mapLookup k' (mapDelete k m) = mapLookup k' m.
Proof.
  intros Hne.
  induction m as [|[k0 v] m IH]; simpl; [reflexivity|].
  destruct (k =? k0)%string eqn:E.
  - apply String.eqb_eq in E. subst k0.
    assert (E' : (k' =? k)%string = false)
      by (apply String.eqb_neq; congruence).
    now rewrite E'.
  - simpl. now rewrite IH.
Qed.

Lemma mapLookup_store_same (k : string) (v : service.Book Payload) (m : service.Map Payload) :
  mapLookup k (mapStore k v m) = Some v.
Proof.
  unfold mapStore. simpl. now rewrite String.eqb_refl.
Qed.

Lemma mapLookup_store_other (k k' : string) (v : service.Book Payload) (m : service.Map Payload) :
  k <> k' -> mapLookup k' (mapStore k v m) = mapLookup k' m.
Proof.
  intros Hne. unfold mapStore. simpl.
  assert (E : (k' =? k)%string = false)
    by (apply String.eqb_neq; congruence).
  rewrite E. now apply mapLookup_delete_other.
Qed.

Lemma mapDelete_keys (k x : string) (m : service.Map Payload) :
  In x (map fst (mapDelete k m)) -> In x (map fst m) /\ x <> k.
Proof.
  induction m as [|[k0 v] m IH]; simpl; [contradiction|].
  destruct (k =? k0)%string eqn:E.
  - intros H. destruct (IH H) as [Hin Hne]. split; [now right | exact Hne].
  - simpl. intros [<-|H].
    + split; [now left|]. apply String.eqb_neq in E. congruence.
    + destruct (IH H) as [Hin Hne]. split; [now right | exact Hne].
Qed.

Lemma mapDelete_unique (k : string) (m : service.Map Payload) :
  uniqueKeys m -> uniqueKeys (mapDelete k m).
Proof.
  unfold uniqueKeys.
  induction m as [|[k0 v] m IH]; simpl; intros Hnd; [constructor|].
  inversion Hnd as [|? ? Hnotin Hnd']; subst.
  destruct (k =? k0)%string; [now apply IH|].
  simpl. constructor; [|now apply IH].
  intros Hin. apply Hnotin. now apply (mapDelete_keys k k0 m).
Qed.

Lemma mapStore_unique (k : string) (v : service.Book Payload) (m : service.Map Payload) :
  uniqueKeys m -> uniqueKeys (mapStore k v m).
Proof.
  intros Hnd. unfold uniqueKeys, mapStore. simpl. constructor.
  - intros Hin. now apply mapDelete_keys in Hin.
  - now apply mapDelete_unique.
Qed.

Lemma mapLookup_None_keys (k : string) (m : service.Map Payload) :
  mapLookup k m = None <-> ~ In k (map fst m).
Proof.
  induction m as [|[k0 v] m IH]; simpl; [tauto|].
  destruct (k =? k0)%string eqn:E.
  - apply String.eqb_eq in E. subst. split; [discriminate | tauto].
  - apply String.eqb_neq in E. rewrite IH. split.
    + intros H [H0|H0]; [congruence | tauto].
    + tauto.
Qed.

Lemma mapDelete_absent (k : string) (m : service.Map Payload) :
  mapLookup k m = None -> mapDelete k m = m.
Proof.
  induction m as [|[k0 v] m IH]; simpl; [reflexivity|].
  destruct (k =? k0)%string; [discriminate|].
  intros H. now rewrite IH.
Qed.

Lemma mapDelete_present_length (k : string) (m : service.Map Payload) (b : service.Book Payload) :
  uniqueKeys m ->
  mapLookup k m = Some b ->
  S (length (mapDelete k m)) = length m.
Proof.
  unfold uniqueKeys.
  induction m as [|[k0 v] m IH]; simpl; [discriminate|].
  intros Hnd. inversion Hnd as [|? ? Hnotin Hnd']; subst.
  destruct (k =? k0)%string eqn:E.
  - intros _. apply String.eqb_eq in E. subst k0.
    rewrite mapDelete_absent; [reflexivity|].
    now apply mapLookup_None_keys.
  - intros H. simpl. now rewrite (IH Hnd' H).
Qed.

(** X9.  [CreateBook] panics exactly when the request carries no resource
    or the database map has not been made, and then it leaves the database
    as it was. *)
Theorem CreateBook_panics_iff :
  forall (r : CreateBookRequest Payload) (db : service.Database Payload),
    (fst (CreateBook r db) = Panics
     <-> Create_Resource r = None \/ db = None) /\
    (fst (CreateBook r db) = Panics -> snd (CreateBook r db) = db).
Proof.
  intros r db. unfold CreateBook.
  destruct (Create_Resource r) as [res|]; destruct db as [m|]; simpl;
    (split; [split; [try discriminate; auto | intros [H|H]; congruence]
            | try discriminate; auto]).
Qed.

(** X10.  A book that [CreateBook] returns can be read back under its
    path: [ReadBook] returns that very book.  Its path is [books/]
    followed by its id, its id is the requested one unless that was
    empty, its other fields are those of the request's resource, and no
    other entry of the database has changed. *)
Theorem CreateBook_then_ReadBook :
  forall (r : CreateBookRequest Payload) (db db' : service.Database Payload) (book : service.Book Payload),
    CreateBook r db = (Returns book, db') ->
    ReadBook {| Read_Path := Path book |} db' = inl book /\
    Path book = "books/" ++ Id book /\
    (Create_Id r <> "" -> Id book = Create_Id r) /\
    (exists resource,
        Create_Resource r = Some resource /\ Rest book = Rest resource) /\
    (forall k, k <> Path book -> lookup k db' = lookup k db).
Proof.
  intros r db db' book. unfold CreateBook.
  destruct (Create_Resource r) as [res|]; [|discriminate].
  destruct db as [m|]; [|discriminate].
  intros H. inversion H; subst; clear H. cbn [Path Id Rest].
  split; [|split; [|split; [|split]]].
  - unfold ReadBook, lookup. cbn [Read_Path].
    now rewrite mapLookup_store_same.
  - reflexivity.
  - intros Hid. apply String.eqb_neq in Hid. now rewrite Hid.
  - now exists res.
  - intros k Hk. unfold lookup. apply mapLookup_store_other. congruence.
Qed.

(** X11.  With an empty id in the request, [CreateBook] numbers the book
    by the size of the database plus one.  When a book is already stored
    under that number, it is replaced: the new book is the one read back
    under the path, and the database has not grown. *)
Theorem CreateBook_generated_id_can_replace :
  forall (r : CreateBookRequest Payload) (m : service.Map Payload)
         (resource old : service.Book Payload),
    Create_Id r = "" ->
    Create_Resource r = Some resource ->
    uniqueKeys m ->
    mapLookup ("books/" ++ Sprint_int (length m + 1)) m = Some old ->
    exists book,
      fst (CreateBook r (Some m)) = Returns book /\
      Id book = Sprint_int (length m + 1) /\
      Rest book = Rest resource /\
      lookup ("books/" ++ Sprint_int (length m + 1))
             (snd (CreateBook r (Some m))) = Some book /\
      len (snd (CreateBook r (Some m))) = len (Some m).
Proof.
  intros r m resource old Hid Hres Hnd Hold.
  unfold CreateBook. rewrite Hres, Hid. cbn [String.eqb len fst snd].
  eexists. split; [reflexivity|]. cbn [Id Rest].
  split; [reflexivity|]. split; [reflexivity|]. split.
  - unfold lookup. apply mapLookup_store_same.
  - unfold mapStore. cbn [length].
    now apply (@mapDelete_present_length _ m old).
Qed.

(** X12.  [ApplyBook] returns exactly when the path is in the database and
    the request carries a resource; otherwise it panics and the database
    is as it was.  The book it returns keeps the id and the path of the
    stored book and takes the other fields from the request; it is what
    [ReadBook] returns for the path afterwards, and no other entry has
    changed. *)
Theorem ApplyBook_replaces_stored_book :
  forall (r : ApplyBookRequest Payload) (db : service.Database Payload),
    match lookup (Apply_Path r) db, Apply_Resource r with
    | Some original, Some resource =>
        let book := {| Id := Id original; Path := Path original;
                       Rest := Rest resource |} in
        fst (ApplyBook r db) = Returns book /\
        ReadBook {| Read_Path := Apply_Path r |} (snd (ApplyBook r db))
        = inl book /\
        (forall k, k <> Apply_Path r ->
                   lookup k (snd (ApplyBook r db)) = lookup k db)
    | _, _ => ApplyBook r db = (Panics, db)
    end.
Proof.
  intros r db. unfold ApplyBook.
  destruct (lookup (Apply_Path r) db) as [original|] eqn:Hl;
    [|reflexivity].
  destruct (Apply_Resource r) as [resource|]; [|reflexivity].
  destruct db as [m|]; [|discriminate Hl].
  cbn [fst snd]. split; [reflexivity|]. split.
  - unfold ReadBook, lookup. cbn [Read_Path].
    now rewrite mapLookup_store_same.
  - intros k Hk. unfold lookup. apply mapLookup_store_other. congruence.
Qed.

(** X13.  After [DeleteBook], [ReadBook] answers [NotFound] for the deleted
    path, every other path reads as before, and deleting again changes
    nothing. *)
Theorem DeleteBook_then_ReadBook :
  forall (r : DeleteBookRequest) (db : service.Database Payload),
    ReadBook {| Read_Path := Delete_Path r |} (DeleteBook r db)
    = inr {| StatusCode := codes_NotFound;
             StatusFormat := "book %q not found";
             StatusArg := Delete_Path r |} /\
    (forall k, k <> Delete_Path r ->
               ReadBook {| Read_Path := k |} (DeleteBook r db)
               = ReadBook {| Read_Path := k |} db) /\
    DeleteBook r (DeleteBook r db) = DeleteBook r db.
Proof.
  intros r db. unfold ReadBook, DeleteBook, lookup. cbn [Read_Path].
  destruct db as [m|]; [|now repeat split].
  split; [now rewrite mapLookup_delete_same|]. split.
  - intros k Hk. rewrite mapLookup_delete_other; congruence.
  - f_equal. apply mapDelete_absent, mapLookup_delete_same.
Qed.

(** X14.  The three writers keep the database well formed: keys stay
    unique and every book stays stored under its own path, which is
    [books/] followed by its id.  The database that [StartServer] makes is
    well formed, so every book [ReadBook] ever returns carries the path it
    was asked for. *)
Theorem service_keeps_database_well_formed :
  forall (db : service.Database Payload),
    wellFormed db ->
    (forall r, wellFormed (snd (CreateBook r db))) /\
    (forall r, wellFormed (snd (ApplyBook r db))) /\
    (forall r, wellFormed (DeleteBook r db)) /\
    (forall r b, ReadBook r db = inl b -> Path b = Read_Path r).
Proof.
  intros db [Hcons Huniq]. split; [|split; [|split]].
  - intros r. unfold CreateBook.
    destruct (Create_Resource r) as [res|]; [|now split].
    destruct db as [m|]; [|now split].
    cbn [snd]. split; [|now apply mapStore_unique].
    intros k b. unfold lookup.
    match goal with
    | |- context [mapStore ?key ?book m] =>
        destruct (String.eqb_spec key k) as [<-|Hne];
        [rewrite mapLookup_store_same; intros H; inversion H; now subst
        |rewrite mapLookup_store_other by exact Hne; apply (Hcons k b)]
    end.
  - intros r. unfold ApplyBook.
    destruct (lookup (Apply_Path r) db) as [original|] eqn:Hl;
      [|now split].
    destruct (Apply_Resource r) as [resource|]; [|now split].
    destruct db as [m|]; [|now split].
    cbn [snd]. split; [|now apply mapStore_unique].
    destruct (Hcons _ _ Hl) as [Hpath Hid].
    intros k b. unfold lookup.
    destruct (String.eqb_spec (Apply_Path r) k) as [<-|Hne].
    + rewrite mapLookup_store_same. intros H. inversion H; subst.
      cbn [Path Id]. now split.
    + rewrite mapLookup_store_other by exact Hne. apply (Hcons k b).
  - intros r. unfold DeleteBook. destruct db as [m|]; [|now split].
    split; [|now apply mapDelete_unique].
    intros k b. unfold lookup.
    destruct (String.eqb_spec (Delete_Path r) k) as [<-|Hne].
    + now rewrite mapLookup_delete_same.
    + rewrite mapLookup_delete_other by exact Hne. apply (Hcons k b).
  - intros r b. unfold ReadBook.
    destruct (lookup (Read_Path r) db) as [b'|] eqn:Hl; [|discriminate].
    intros H. inversion H; subst. now destruct (Hcons _ _ Hl).
Qed.

End BookstoreProperties.

Lemma CreateBook_then_ReadBook_witness :
  let r := {| service.Create_Id := "";
              service.Create_Resource := Some novel |} in
  let book := {| service.Id := "1"; service.Path := "books/1";
                 service.Rest := "a novel" |} in
  let db' := Some [("books/1", book)] in
  service.CreateBook r (service.StartServer_database string)
  = (Returns book, db') /\
  service.ReadBook {| service.Read_Path := service.Path book |} db'
  = inl book /\
  service.Path book = "books/" ++ service.Id book /\
  (service.Create_Id r <> "" -> service.Id book = service.Create_Id r) /\
  (exists resource,
      service.Create_Resource r = Some resource /\
      service.Rest book = service.Rest resource) /\
  (forall k, k <> service.Path book ->
             service.lookup k db'
             = service.lookup k (service.StartServer_database string)).
Proof.
  intros r book db'.
  assert (H : service.CreateBook r (service.StartServer_database string)
              = (Returns book, db')) by reflexivity.
  split; [exact H|].
  exact (@CreateBook_then_ReadBook string r
           (service.StartServer_database string) db' book H).
Defined.

Lemma CreateBook_generated_id_can_replace_witness :
  let r := {| service.Create_Id := "";
              service.Create_Resource := Some atlas |} in
  let old := {| service.Id := "2"; service.Path := "books/2";
                service.Rest := "a novel" |} in
  let m := [("books/2", old)] in
  oneBook = Some m /\
  service.Create_Id r = "" /\
  service.Create_Resource r = Some atlas /\
  service.uniqueKeys m /\
  service.mapLookup ("books/" ++ service.Sprint_int (length m + 1)) m
  = Some old /\
  exists book,
    fst (service.CreateBook r (Some m)) = Returns book /\
    service.Id book = service.Sprint_int (length m + 1) /\
    service.Rest book = service.Rest atlas /\
    service.lookup ("books/" ++ service.Sprint_int (length m + 1))
                   (snd (service.CreateBook r (Some m))) = Some book /\
    service.len (snd (service.CreateBook r (Some m)))
    = service.len (Some m).
Proof.
  intros r old m.
  assert (H1 : service.Create_Id r = "") by reflexivity.
  assert (H2 : service.Create_Resource r = Some atlas) by reflexivity.
  assert (H3 : service.uniqueKeys m)
    by (repeat constructor; intros []).
  assert (H4 : service.mapLookup
                 ("books/" ++ service.Sprint_int (length m + 1)) m
               = Some old) by reflexivity.
  split; [reflexivity|]. split; [exact H1|]. split; [exact H2|].
  split; [exact H3|]. split; [exact H4|].
  exact (@CreateBook_generated_id_can_replace string r m atlas old
           H1 H2 H3 H4).
Defined.

Lemma service_keeps_database_well_formed_witness :
  service.wellFormed (service.StartServer_database string) /\
  (forall r, service.wellFormed
               (snd (service.CreateBook
                       r (service.StartServer_database string)))) /\
  (forall r, service.wellFormed
               (snd (service.ApplyBook
                       r (service.StartServer_database string)))) /\
  (forall r, service.wellFormed
               (service.DeleteBook
                  r (service.StartServer_database string))) /\
  (forall r b,
      service.ReadBook r (service.StartServer_database string) = inl b ->
      service.Path b = service.Read_Path r).
Proof.
  assert (H : service.wellFormed (service.StartServer_database string)).
  { split; [intros k b Hk; discriminate Hk | constructor]. }
  split; [exact H|].
  exact (@service_keeps_database_well_formed
           string (service.StartServer_database string) H).
Defined.
